(** * cali-ai: the detection endpoint, its rate limiter, the audit log and
    the pages

    A shallow embedding of [api/detect.js] (rate limiter, temp-file handling,
    the two-stage inference handler), of [lib/database.js], of the upload page
    and of the two result pages with their renderers, and the properties the
    specification states about them.

    Conventions of the embedding:
    - JS numbers are rationals ([Q]). The arithmetic of doubles is not
      modelled: [Math.round(c * 100)], whose product is rounded to a double
      before [Math.round] sees it, is a function the environment supplies
      ([roundPercent]), and nothing is proved from its values.
    - JS strings are [string]s of characters below 256 (header texts are
      latin1); [toLowerCase] acts on ASCII letters, [trim] removes the white
      space of that range (9-13, 32 and 160).
    - Objects built by object literals and sent with [res.json] are [value]s;
      objects received from the inference provider and from the multipart
      parser are records whose optional members are [option]s.
    - Effects (temp directory, rate-limit map, response headers, outbound
      calls, the response itself) are threaded through a state-and-exception
      monad; the outcomes of the multipart parser, of [fetch] and of
      [fs.unlinkSync] are inputs.
    - [handler] is the exported function, and the properties of the endpoint
      are stated on it. *)

From Stdlib Require Import ZArith QArith Qround String Ascii List Lia Lqa DecimalString.
From stdpp Require Import base option gmap strings list.

Local Open Scope Z_scope.

(** ** JavaScript string primitives *)

Module JsString.

Definition lower_ascii (c : ascii) : ascii :=
  let n := nat_of_ascii c in
  if (Nat.leb 65 n && Nat.leb n 90)%bool then ascii_of_nat (n + 32) else c.

(** [s.toLowerCase()] *)
Fixpoint toLowerCase (s : string) : string :=
  match s with
  | EmptyString => EmptyString
  | String c r => String (lower_ascii c) (toLowerCase r)
  end.

(** [s.includes(sub)]: [sub] occurs in [s] at some offset. *)
Fixpoint includes (s sub : string) : bool :=
  if String.prefix sub s then true
  else match s with
       | EmptyString => false
       | String _ r => includes r sub
       end.

(** White space and line terminators among the characters below 256: TAB, LF,
    VT, FF, CR, SP and NBSP. *)
Definition is_space (c : ascii) : bool :=
  let n := nat_of_ascii c in
  (Nat.eqb n 32 || (Nat.leb 9 n && Nat.leb n 13) || Nat.eqb n 160)%bool.

Fixpoint trimStart (s : string) : string :=
  match s with
  | String c r => if is_space c then trimStart r else s
  | EmptyString => EmptyString
  end.

Fixpoint trimEnd (s : string) : string :=
  match s with
  | EmptyString => EmptyString
  | String c r =>
      match trimEnd r with
      | EmptyString => if is_space c then EmptyString else String c EmptyString
      | r' => String c r'
      end
  end.

(** [s.trim()] *)
Definition trim (s : string) : string := trimEnd (trimStart s).

(** [s.split(',')[0]]: the text before the first comma. *)
Fixpoint beforeComma (s : string) : string :=
  match s with
  | EmptyString => EmptyString
  | String c r => if Ascii.eqb c "," then EmptyString else String c (beforeComma r)
  end.

(** Decimal rendering of an integer, as template literals do. *)
Definition ofZ (z : Z) : string := NilZero.string_of_int (Z.to_int z).

End JsString.

(** ** JavaScript values built by object literals *)

Local Set Warnings "-register-all".

Inductive value : Type :=
| VUndef
| VNull
| VBool (b : bool)
| VNum (q : Q)
| VStr (s : string)
| VDate (ms : Z)            (* an ISO-8601 text, kept as its epoch milliseconds *)
| VArr (l : list value)
| VObj (o : list (string * value)).

Fixpoint assoc (k : string) (o : list (string * value)) : value :=
  match o with
  | [] => VUndef
  | (k', v) :: r => if String.eqb k k' then v else assoc k r
  end.

(** [v.k] on an object; a member that is not there reads as [undefined]. *)
Definition get (k : string) (v : value) : value :=
  match v with
  | VObj o => assoc k o
  | _ => VUndef
  end.

(** [Object.keys(v)] *)
Definition keys (v : value) : list string :=
  match v with
  | VObj o => map fst o
  | _ => []
  end.

Definition optStr (o : option string) : value :=
  match o with Some s => VStr s | None => VUndef end.

Definition optNum (o : option Q) : value :=
  match o with Some q => VNum q | None => VUndef end.

Definition numZ (z : Z) : value := VNum (inject_Z z).

(** ** Rate limiter (api/detect.js, lines 211-249) *)

Record UserRecord := { count : Z; resetTime : Z }.

Record RateLimit := {
  allowed : bool;
  remaining : Z;
  rl_resetTime : option Z      (* present on the rejecting branch only *)
}.

Definition RATE_LIMIT_WINDOW : Z := 60 * 60 * 1000.
Definition MAX_REQUESTS : Z := 5.

(** [checkRateLimit(ip)] at clock reading [now], on the shared map. *)
Definition checkRateLimit (now : Z) (ip : string) (m : gmap string UserRecord)
  : RateLimit * gmap string UserRecord :=
  match m !! ip with
  | None =>
      ({| allowed := true; remaining := MAX_REQUESTS - 1; rl_resetTime := None |},
       <[ip := {| count := 1; resetTime := now + RATE_LIMIT_WINDOW |}]> m)
  | Some userRecord =>
      if now >? resetTime userRecord then
        ({| allowed := true; remaining := MAX_REQUESTS - 1; rl_resetTime := None |},
         <[ip := {| count := 1; resetTime := now + RATE_LIMIT_WINDOW |}]> m)
      else if count userRecord >=? MAX_REQUESTS then
        ({| allowed := false; remaining := 0;
            rl_resetTime := Some (resetTime userRecord) |}, m)
      else
        let userRecord' :=
          {| count := count userRecord + 1; resetTime := resetTime userRecord |} in
        ({| allowed := true; remaining := MAX_REQUESTS - count userRecord';
            rl_resetTime := None |},
         <[ip := userRecord']> m)
  end.

(** A run of calls by one client at the given clock readings; the answers in
    call order and the map afterwards. *)
Fixpoint checkRateLimit_run (ip : string) (times : list Z) (m : gmap string UserRecord)
  : list RateLimit * gmap string UserRecord :=
  match times with
  | [] => ([], m)
  | now :: rest =>
      let '(r, m') := checkRateLimit now ip m in
      let '(rs, m'') := checkRateLimit_run ip rest m' in
      (r :: rs, m'')
  end.

(** ** Inputs of one request *)

(** A prediction as the inference provider returns it. *)
Record Prediction := {
  pred_class : option string;       (* [class] *)
  pred_className : option string;   (* [className] *)
  pred_confidence : option Q;       (* [confidence], a fraction *)
  pred_x : option Q;
  pred_y : option Q;
  pred_width : option Q;
  pred_height : option Q
}.

Record ImageInfo := { image_width : option Q; image_height : option Q }.

(** The JSON body of an inference response. *)
Record ModelResponse := {
  predictions : option (list Prediction);
  top_prediction : option Prediction;      (* [top] *)
  image : option ImageInfo
}.

(** What awaiting [fetch] and reading the body can give. *)
Inductive FetchOutcome :=
| FetchRejected (message : string)            (* fetch, text() or json() rejects *)
| HttpFailure (status : Z) (text : string)    (* response.ok is false *)
| JsonBody (r : ModelResponse).

(** A file as formidable hands it over. *)
Record File := {
  filepath : string;
  mimetype : option string;
  file_size : Z;                    (* [size] *)
  file_content : string             (* the bytes, in their base64 rendering *)
}.

(** [files.image]: absent, one file object, or an array of file objects. *)
Inductive FilesImage :=
| NoImage
| OneFile (f : File)
| FileArray (l : list File).

(** What [form.parse] calls back with: an error, or the files it wrote, those
    of the field [image] and those of any other field. *)
Inductive ParseOutcome :=
| ParseError (message : string)
| Parsed (image : FilesImage) (others : list File).

Record Request := {
  method : string;
  req_headers : gmap string string;      (* [req.headers] *)
  remoteAddress : option string          (* [req.connection?.remoteAddress] *)
}.

(** [process.env], the clock, and the outcomes of the external calls. *)
Record Env := {
  ALLOWED_ORIGIN : option string;
  RATE_LIMIT_PAUSED_var : option string;
  ROBOFLOW_MODEL1_URL : option string;
  ROBOFLOW_MODEL2_URL : option string;
  ROBOFLOW_API_KEY : option string;
  NODE_ENV : option string;
  clock : Z;                             (* [Date.now()], [new Date()] *)
  formOutcome : ParseOutcome;            (* what [form.parse] calls back with *)
  fetchOutcome : nat -> FetchOutcome;    (* the n-th outbound call's outcome *)
  unlinkError : string -> option string; (* the error of [fs.unlinkSync], if any *)
  roundPercent : Q -> Z                  (* [Math.round(c * 100)] on doubles *)
}.

(** ** State, events and the handler monad *)

Inductive Event :=
| EvParseForm
| EvReadFile (p : string)
| EvFetch (url : string)
| EvUnlink (p : string)
| EvLogDetection (entry : value)
| EvRespond (status : Z).

Record State := {
  fs : gmap string string;                  (* temp directory: path -> content *)
  rateLimitMap : gmap string UserRecord;    (* module-level [rateLimitMap] *)
  uploadedFilePath : option string;         (* the handler's [let uploadedFilePath] *)
  resHeaders : list (string * value);       (* [res.setHeader] calls, oldest first *)
  fetches : nat;                            (* outbound calls made so far *)
  trace : list Event                        (* oldest first *)
}.

Inductive JsError :=
| ReferenceError (message : string)
| TypeError (message : string)
| Error (message : string).

Definition error_message (e : JsError) : string :=
  match e with ReferenceError m | TypeError m | Error m => m end.

Record Response := { status : Z; body : value }.

(** How a piece of the handler ends: it yields a value, the handler returns
    a response, or an exception propagates. *)
Inductive outcome (A : Type) :=
| Val (a : A)
| Ret (r : Response)
| Thrown (e : JsError).
Arguments Val {A} a.
Arguments Ret {A} r.
Arguments Thrown {A} e.

Definition M (A : Type) : Type := State -> outcome A * State.

Definition ret {A} (a : A) : M A := fun s => (Val a, s).

Definition bind {A B} (c : M A) (k : A -> M B) : M B :=
  fun s =>
    match c s with
    | (Val a, s') => k a s'
    | (Ret r, s') => (Ret r, s')
    | (Thrown e, s') => (Thrown e, s')
    end.

Definition throw {A} (e : JsError) : M A := fun s => (Thrown e, s).

(** [try { c } catch (error) { h error }] *)
Definition try_catch {A} (c : M A) (h : JsError -> M A) : M A :=
  fun s =>
    match c s with
    | (Thrown e, s') => h e s'
    | r => r
    end.

Declare Scope js_scope.
Delimit Scope js_scope with js.
Notation "'let*' x := c 'in' k" := (bind c (fun x => k))
  (at level 10, x name, c at level 100, k at level 200) : js_scope.
Notation "c ;;; k" := (bind c (fun _ => k))
  (at level 100, k at level 200, right associativity) : js_scope.
Local Open Scope js_scope.

(** The state updates the primitives make. *)
Definition set_fs (d : gmap string string) (s : State) : State :=
  {| fs := d; rateLimitMap := rateLimitMap s; uploadedFilePath := uploadedFilePath s;
     resHeaders := resHeaders s; fetches := fetches s; trace := trace s |}.

Definition set_rateLimitMap (m : gmap string UserRecord) (s : State) : State :=
  {| fs := fs s; rateLimitMap := m; uploadedFilePath := uploadedFilePath s;
     resHeaders := resHeaders s; fetches := fetches s; trace := trace s |}.

Definition set_tracked (p : option string) (s : State) : State :=
  {| fs := fs s; rateLimitMap := rateLimitMap s; uploadedFilePath := p;
     resHeaders := resHeaders s; fetches := fetches s; trace := trace s |}.

Definition add_header (k : string) (v : value) (s : State) : State :=
  {| fs := fs s; rateLimitMap := rateLimitMap s; uploadedFilePath := uploadedFilePath s;
     resHeaders := resHeaders s ++ [(k, v)]; fetches := fetches s; trace := trace s |}.

Definition count_fetch (s : State) : State :=
  {| fs := fs s; rateLimitMap := rateLimitMap s; uploadedFilePath := uploadedFilePath s;
     resHeaders := resHeaders s; fetches := S (fetches s); trace := trace s |}.

Definition log_event (e : Event) (s : State) : State :=
  {| fs := fs s; rateLimitMap := rateLimitMap s; uploadedFilePath := uploadedFilePath s;
     resHeaders := resHeaders s; fetches := fetches s; trace := trace s ++ [e] |}.

Definition emit (e : Event) : M unit := fun s => (Val tt, log_event e s).

(** [res.setHeader(k, v)] *)
Definition setHeader (k : string) (v : value) : M unit :=
  fun s => (Val tt, add_header k v s).

(** [uploadedFilePath = p] *)
Definition set_uploadedFilePath (p : option string) : M unit :=
  fun s => (Val tt, set_tracked p s).

Definition get_uploadedFilePath : M (option string) :=
  fun s => (Val (uploadedFilePath s), s).

(** [return res.status(c).json(b)] (and [res.status(c).end()] with an
    undefined body): the response is sent and the handler returns. *)
Definition respond {A} (c : Z) (b : value) : M A :=
  fun s => (Ret {| status := c; body := b |}, log_event (EvRespond c) s).

(** ** Helpers of api/detect.js *)

Definition MAX_FILE_SIZE : Z := 10 * 1024 * 1024.
Definition ALLOWED_TYPES : list string :=
  ["image/jpeg"; "image/jpg"; "image/png"; "image/webp"]%string.

(** [a || b] on strings that may be undefined: the empty string is falsy. *)
Definition truthy (o : option string) : bool :=
  match o with
  | Some s => negb (String.eqb s "")
  | None => false
  end.

Definition orElse (a b : option string) : option string :=
  if truthy a then a else b.

(** [getClientIP(req)] *)
Definition getClientIP (req : Request) : string :=
  let forwarded :=
    match req_headers req !! "x-forwarded-for"%string with
    | Some h => Some (JsString.trim (JsString.beforeComma h))
    | None => None
    end in
  match orElse forwarded
          (orElse (req_headers req !! "x-real-ip"%string) (remoteAddress req)) with
  | Some a => if truthy (Some a) then a else "unknown"%string
  | None => "unknown"%string
  end.

(** The call of [checkRateLimit] on the module's map. *)
Definition checkRateLimitM (env : Env) (ip : string) : M RateLimit :=
  fun s =>
    let '(r, m') := checkRateLimit (clock env) ip (rateLimitMap s) in
    (Val r, set_rateLimitMap m' s).

Definition files_of (i : FilesImage) : list File :=
  match i with
  | NoImage => []
  | OneFile f => [f]
  | FileArray l => l
  end.

(** The files formidable wrote while parsing. *)
Definition store (l : list File) (d : gmap string string) : gmap string string :=
  foldr (fun f d => <[filepath f := file_content f]> d) d l.

(** [parseForm(req)]: formidable writes the uploaded files to the temp
    directory and calls back; an error rejects the promise. *)
Definition parseForm (env : Env) : M FilesImage :=
  emit EvParseForm ;;;
  match formOutcome env with
  | ParseError m => throw (Error m)
  | Parsed i others =>
      fun s => (Val i, set_fs (store (files_of i ++ others) (fs s)) s)
  end.

(** [fs.readFileSync(p)] *)
Definition readFileSync (filePath : option string) : M string :=
  match filePath with
  | None => throw (TypeError "The path argument must be of type string")
  | Some p =>
      emit (EvReadFile p) ;;;
      fun s => match fs s !! p with
               | Some c => (Val c, s)
               | None => (Thrown (Error "ENOENT: no such file or directory"), s)
               end
  end.

(** [imageToBase64(filePath)] *)
Definition imageToBase64 (filePath : option string) : M string :=
  let* imageBuffer := readFileSync filePath in
  ret imageBuffer.

(** [fs.existsSync(p)] *)
Definition existsSync (p : string) : M bool :=
  fun s => (Val (bool_decide (is_Some (fs s !! p))), s).

(** [fs.unlinkSync(p)]: throws when the file is not there or the system
    refuses to remove it (EPERM, EBUSY, ...). *)
Definition unlinkSync (env : Env) (p : string) : M unit :=
  fun s => match fs s !! p with
           | Some _ =>
               match unlinkError env p with
               | Some m => (Thrown (Error m), s)
               | None => (Val tt, log_event (EvUnlink p) (set_fs (delete p (fs s)) s))
               end
           | None => (Thrown (Error "ENOENT: no such file or directory"), s)
           end.

(** [deleteImageFile(filePath)] *)
Definition deleteImageFile (env : Env) (filePath : option string) : M unit :=
  try_catch
    (if truthy filePath then
       match filePath with
       | Some p =>
           let* there := existsSync p in
           if there then unlinkSync env p else ret tt
       | None => ret tt
       end
     else ret tt)
    (fun error => ret tt).

(** [callRoboflowAPI(base64Image, apiUrl, apiKey)] *)
Definition callRoboflowAPI (env : Env) (base64Image apiUrl apiKey : string)
  : M ModelResponse :=
  fun s =>
    let s' := log_event (EvFetch (apiUrl +:+ "?api_key=" +:+ apiKey)) (count_fetch s) in
    match fetchOutcome env (fetches s) with
    | FetchRejected m => (Thrown (Error m), s')
    | HttpFailure st text =>
        (Thrown (Error ("Roboflow API error (" +:+ JsString.ofZ st +:+ "): " +:+ text)), s')
    | JsonBody r => (Val r, s')
    end.

(** [logDetection(entry).catch(...)]: dispatched, never awaited. *)
Definition logDetection (entry : value) : M unit := emit (EvLogDetection entry).

(** The comparator [(a, b) => b.confidence - a.confidence] puts [a] before
    [b]: the difference is negative or zero, or it is NaN (a confidence is
    missing), which [sort] takes for zero. *)
Definition not_after (a b : Prediction) : bool :=
  match pred_confidence a, pred_confidence b with
  | Some x, Some y => Qle_bool y x
  | _, _ => true
  end.

(** [predictions.sort((a, b) => b.confidence - a.confidence)]: the stable
    sort by confidence, highest first. Where a confidence is missing the
    comparator is not an ordering and the engine chooses the result; the
    model takes the one of a stable insertion. *)
Fixpoint insert_by_confidence (a : Prediction) (l : list Prediction) : list Prediction :=
  match l with
  | [] => [a]
  | b :: r =>
      if not_after a b then a :: b :: r
      else b :: insert_by_confidence a r
  end.

Definition sort_by_confidence (l : list Prediction) : list Prediction :=
  foldr insert_by_confidence [] l.

(** ** The handler of api/detect.js (lines 303-556) *)

(** An error body [{ error, type, ...more }]. *)
Definition errorBody (error type : string) (more : list (string * value)) : value :=
  VObj ([("error"%string, VStr error); ("type"%string, VStr type)] ++ more).

(** [deleteImageFile(uploadedFilePath)] *)
Definition deleteUploaded (env : Env) : M unit :=
  let* p := get_uploadedFilePath in
  deleteImageFile env p.

(** [x || d] on numbers: zero is falsy. *)
Definition numOr (x : option Q) (d : Q) : Q :=
  match x with
  | Some q => if Qeq_bool q 0 then d else q
  | None => d
  end.

(** [l?.[0]] on an array that may be undefined. *)
Definition first (l : option (list Prediction)) : option Prediction :=
  match l with
  | Some (p :: _) => Some p
  | _ => None
  end.

(** Lines 405-453: the call of the verification model and the checks on its
    answer. Yields [model1Class] and [model1Confidence]. *)
Definition verification (env : Env) (base64Image MODEL1_URL API_KEY : string)
  : M (option string * Z) :=
  let* model1Response := callRoboflowAPI env base64Image MODEL1_URL API_KEY in
  (* 413 *)
  let predictions0 := default [] (predictions model1Response) in
  (* 414: sort() reorders the array in place; when the array is the
     response's own member, the response shows the new order from here on *)
  let sorted := sort_by_confidence predictions0 in
  let model1Response' :=
    match predictions model1Response with
    | Some _ => {| predictions := Some sorted;
                   top_prediction := top_prediction model1Response;
                   image := image model1Response |}
    | None => model1Response
    end in
  let bestPrediction := head sorted in
  (* 416 *)
  let* rejected :=
    match bestPrediction with
    | None => ret true
    | Some b =>
        match pred_class b with
        | None => throw (TypeError "Cannot read properties of undefined (reading 'toLowerCase')")
        | Some c =>
            (* [undefined < 0.5] is false *)
            ret (negb (String.eqb (JsString.toLowerCase c) "calamansi")
                 || match pred_confidence b with
                    | Some q => negb (Qle_bool (1 # 2) q)
                    | None => false
                    end)%bool
        end
    end in
  if rejected then
    deleteUploaded env ;;;
    respond 400
      (errorBody "Image does not appear to be a calamansi plant." "validation_error"
         [("detected"%string,
           match bestPrediction with Some b => optStr (pred_class b) | None => VUndef end);
          ("confidence"%string,
           match bestPrediction with Some b => optNum (pred_confidence b) | None => VUndef end)])
  else
    (* 431 *)
    match match first (predictions model1Response') with
          | Some p => Some p
          | None => top_prediction model1Response'
          end with
    | None =>
        deleteUploaded env ;;;
        respond 500 (errorBody "Model 1 returned no predictions" "model_error" [])
    | Some model1Prediction =>
        (* 440-441 *)
        let model1Class :=
          orElse (pred_class model1Prediction) (pred_className model1Prediction) in
        let model1Confidence :=
          roundPercent env (numOr (pred_confidence model1Prediction) 0) in
        (* 444 *)
        let isCalamansi :=
          match model1Class with
          | Some c => JsString.includes (JsString.toLowerCase c) "calamansi"
          | None => false
          end in
        if (negb isCalamansi || (model1Confidence <? 50))%bool then
          deleteUploaded env ;;;
          respond 400
            (errorBody
               "Image does not appear to be a calamansi plant. Please upload a clear photo of a calamansi."
               "validation_error"
               [("detected"%string, optStr model1Class);
                ("confidence"%string, numZ model1Confidence)])
        else ret (model1Class, model1Confidence)
    end.

(** [Math.round(pred.confidence * 100)]; without a confidence it is NaN,
    written [VNull], which is what [res.json] sends for it. *)
Definition percentage (env : Env) (pred : Prediction) : value :=
  match pred_confidence pred with
  | Some q => numZ (roundPercent env q)
  | None => VNull
  end.

(** One entry of [allPredictions] (lines 480-483). *)
Definition allPredictions_entry (env : Env) (pred : Prediction) : value :=
  VObj [("class"%string, optStr (pred_class pred));
        ("confidence"%string, percentage env pred)].

(** Lines 455-525: the call of the disease model, the payload, the audit
    log, the deletion of the upload and the 200 response. *)
Definition classification (env : Env) (clientIP : string)
    (imageFile_mimetype : option string) (imageFile_size : option Z)
    (base64Image MODEL2_URL API_KEY : string)
    (model1Class : option string) (model1Confidence : Z) : M unit :=
  let* model2Response := callRoboflowAPI env base64Image MODEL2_URL API_KEY in
  match first (predictions model2Response) with
  | None =>
      deleteUploaded env ;;;
      respond 500 (errorBody "Model 2 returned no predictions" "model_error" [])
  | Some model2Prediction =>
      let model2Class := pred_class model2Prediction in
      let model2Confidence := percentage env model2Prediction in
      let boundingBox :=
        VObj [("x"%string, optNum (pred_x model2Prediction));
              ("y"%string, optNum (pred_y model2Prediction));
              ("width"%string, optNum (pred_width model2Prediction));
              ("height"%string, optNum (pred_height model2Prediction))] in
      let imageWidth :=
        numOr (match image model2Response with
               | Some i => image_width i | None => None end) 640 in
      let imageHeight :=
        numOr (match image model2Response with
               | Some i => image_height i | None => None end) 640 in
      let allPredictions :=
        match predictions model2Response with
        | Some l => map (allPredictions_entry env) l
        | None => []
        end in
      let timestamp := VDate (clock env) in
      let mimetypeText := default "undefined"%string imageFile_mimetype in
      let responseData :=
        VObj [("model1"%string,
               VObj [("class"%string, optStr model1Class);
                     ("confidence"%string, numZ model1Confidence)]);
              ("model2"%string,
               VObj [("class"%string, optStr model2Class);
                     ("confidence"%string, model2Confidence);
                     ("boundingBox"%string, boundingBox)]);
              ("imageData"%string,
               VStr ("data:" +:+ mimetypeText +:+ ";base64," +:+ base64Image));
              ("imageWidth"%string, VNum imageWidth);
              ("imageHeight"%string, VNum imageHeight);
              ("allPredictions"%string, VArr allPredictions);
              ("timestamp"%string, timestamp)] in
      logDetection
        (VObj [("timestamp"%string, timestamp);
               ("ip"%string, VStr clientIP);
               ("model1Class"%string, optStr model1Class);
               ("model1Confidence"%string, numZ model1Confidence);
               ("model2Class"%string, optStr model2Class);
               ("model2Confidence"%string, model2Confidence);
               ("imageMeta"%string,
                VObj [("size"%string,
                       match imageFile_size with Some z => numZ z | None => VUndef end);
                      ("type"%string, optStr imageFile_mimetype);
                      ("width"%string, VNum imageWidth);
                      ("height"%string, VNum imageHeight)])]) ;;;
      (* 521-522 *)
      deleteUploaded env ;;;
      set_uploadedFilePath None ;;;
      respond 200 responseData
  end.

(** [files.image?.[0] || files.image]: a file object, or an empty array
    (which is truthy and has none of a file's members). *)
Inductive ImageFile :=
| AFile (f : File)
| AnEmptyArray.

Definition select_imageFile (i : FilesImage) : option ImageFile :=
  match i with
  | NoImage => None
  | OneFile f => Some (AFile f)
  | FileArray [] => Some AnEmptyArray
  | FileArray (f :: _) => Some (AFile f)
  end.

Definition imageFile_filepath (i : ImageFile) : option string :=
  match i with AFile f => Some (filepath f) | AnEmptyArray => None end.

Definition imageFile_mimetype (i : ImageFile) : option string :=
  match i with AFile f => mimetype f | AnEmptyArray => None end.

Definition imageFile_size (i : ImageFile) : option Z :=
  match i with AFile f => Some (file_size f) | AnEmptyArray => None end.

(** [ALLOWED_TYPES.includes(t)] *)
Definition allowed_type (t : option string) : bool :=
  match t with
  | Some m => existsb (String.eqb m) ALLOWED_TYPES
  | None => false
  end.

(** Lines 355-525: from the parsing of the form to the 200 response. *)
Definition detection (env : Env) (clientIP : string) : M unit :=
  (* 356 *)
  let* files_image := parseForm env in
  (* 359 *)
  match select_imageFile files_image with
  | None => respond 400 (errorBody "No image file provided" "validation_error" [])
  | Some imageFile =>
      (* 368 *)
      set_uploadedFilePath (imageFile_filepath imageFile) ;;;
      if negb (allowed_type (imageFile_mimetype imageFile)) then
        deleteUploaded env ;;;
        respond 400
          (errorBody "Invalid file type. Only JPEG, PNG, and WebP are allowed."
             "validation_error" [])
      else if match imageFile_size imageFile with
              | Some z => z >? MAX_FILE_SIZE
              | None => false
              end then
        deleteUploaded env ;;;
        respond 400 (errorBody "File size exceeds 10MB limit" "validation_error" [])
      else
        (* 389 *)
        let* base64Image := (let* p := get_uploadedFilePath in imageToBase64 p) in
        (* 392-396 *)
        match ROBOFLOW_MODEL1_URL env, ROBOFLOW_MODEL2_URL env, ROBOFLOW_API_KEY env with
        | Some MODEL1_URL, Some MODEL2_URL, Some API_KEY =>
            if (truthy (Some MODEL1_URL) && truthy (Some MODEL2_URL)
                && truthy (Some API_KEY))%bool then
              let* m1 := verification env base64Image MODEL1_URL API_KEY in
              classification env clientIP
                (imageFile_mimetype imageFile) (imageFile_size imageFile)
                base64Image MODEL2_URL API_KEY (fst m1) (snd m1)
            else
              deleteUploaded env ;;;
              respond 500 (errorBody "Server configuration error" "config_error" [])
        | _, _, _ =>
            deleteUploaded env ;;;
            respond 500 (errorBody "Server configuration error" "config_error" [])
        end
  end.

(** Lines 527-555: the [catch] block. *)
Definition handler_catch (env : Env) (error : JsError) : M unit :=
  let* p := get_uploadedFilePath in
  (if truthy p then deleteImageFile env p else ret tt) ;;;
  if JsString.includes (error_message error) "maxFileSize" then
    respond 400 (errorBody "File size exceeds maximum limit" "validation_error" [])
  else if JsString.includes (error_message error) "Roboflow" then
    respond 502
      (errorBody "AI model service is temporarily unavailable. Please try again."
         "service_error" [])
  else
    respond 500
      (errorBody "An unexpected error occurred during detection" "server_error"
         [("details"%string,
           if bool_decide (NODE_ENV env = Some "development"%string)
           then VStr (error_message error) else VUndef)]).

(** The names bound where line 344 reads [rateLimit]: the module's
    declarations, the handler's parameters and [let], and the [const]s of
    the [try] block (a block's own [const]s are not among them). Node
    defines no global of that name. *)
Definition module_bindings : list string :=
  ["formidable"; "fs"; "logDetection"; "rateLimitMap"; "RATE_LIMIT_WINDOW";
   "MAX_REQUESTS"; "MAX_FILE_SIZE"; "ALLOWED_TYPES"; "getClientIP";
   "checkRateLimit"; "parseForm"; "imageToBase64"; "deleteImageFile";
   "callRoboflowAPI"; "handler"; "config"]%string.

Definition handler_bindings : list string :=
  ["req"; "res"; "uploadedFilePath"]%string.

Definition try_block_bindings : list string :=
  ["allowedOrigins"; "origin"; "clientIP"; "RATE_LIMIT_PAUSED"; "files";
   "imageFile"; "base64Image"; "MODEL1_URL"; "MODEL2_URL"; "API_KEY";
   "model1Response"; "predictions"; "bestPrediction"; "topPrediction";
   "model1Prediction"; "model1Class"; "model1Confidence"; "isCalamansi";
   "model2Response"; "model2Prediction"; "model2Class"; "model2Confidence";
   "boundingBox"; "imageWidth"; "imageHeight"; "allPredictions"; "timestamp";
   "responseData"]%string.

Definition scope_at_line_344 : list string :=
  try_block_bindings ++ handler_bindings ++ module_bindings.

(** The read of the identifier [rateLimit] at line 344. [in_block] is the
    value the [const] of lines 338-343 was given, if that block ran. *)
Definition read_rateLimit (in_block : option RateLimit) : M RateLimit :=
  if existsb (String.eqb "rateLimit") scope_at_line_344 then
    match in_block with
    | Some r => ret r
    | None => throw (TypeError "Cannot read properties of undefined (reading 'allowed')")
    end
  else throw (ReferenceError "rateLimit is not defined").

(** Lines 308-525: the [try] block. *)
Definition handler_try (env : Env) (req : Request) : M unit :=
  (* 309-317 *)
  let allowedOrigins :=
    [default "http://localhost:3000"%string
       (orElse (ALLOWED_ORIGIN env) (Some "http://localhost:3000"%string));
     "https://*.vercel.app"%string] in
  let origin := req_headers req !! "origin"%string in
  (match origin with
   | Some o =>
       if (truthy origin
           && (existsb (String.eqb o) allowedOrigins
               || JsString.includes o ".vercel.app"))%bool
       then setHeader "Access-Control-Allow-Origin" (VStr o)
       else ret tt
   | None => ret tt
   end) ;;;
  setHeader "Access-Control-Allow-Methods" (VStr "POST, OPTIONS") ;;;
  setHeader "Access-Control-Allow-Headers" (VStr "Content-Type") ;;;
  (* 323 *)
  if String.eqb (method req) "OPTIONS" then respond 200 VUndef
  (* 328 *)
  else if negb (String.eqb (method req) "POST") then
    respond 405 (errorBody "Method not allowed" "method_error" [])
  else
    (* 336-337 *)
    let clientIP := getClientIP req in
    let RATE_LIMIT_PAUSED :=
      bool_decide (RATE_LIMIT_PAUSED_var env = Some "true"%string) in
    (* 338-343 *)
    let* in_block :=
      (if negb RATE_LIMIT_PAUSED then
         let* rateLimit := checkRateLimitM env clientIP in
         setHeader "X-RateLimit-Limit" (numZ MAX_REQUESTS) ;;;
         setHeader "X-RateLimit-Remaining" (numZ (remaining rateLimit)) ;;;
         ret (Some rateLimit)
       else ret None) in
    (* 344 *)
    let* rateLimit := read_rateLimit in_block in
    (if negb (allowed rateLimit) then
       let resetDate :=
         match rl_resetTime rateLimit with Some t => VDate t | None => VUndef end in
       setHeader "X-RateLimit-Reset" resetDate ;;;
       respond 429
         (errorBody "Too many requests. Please try again later." "rate_limit_error"
            [("resetTime"%string, resetDate)])
     else ret tt) ;;;
    (* 355-525 *)
    detection env clientIP.

(** [handler(req, res)] *)
Definition handler (env : Env) (req : Request) : M unit :=
  (* 305 *)
  set_uploadedFilePath None ;;;
  try_catch (handler_try env req) (handler_catch env).

(** ** The multi-box renderer of the results page (lines 29-97) *)

Module Renderer.

(** A number on the canvas side; [None] is a value that is not a finite
    number ([NaN], or the result of dividing by zero). *)
Definition num := option Q.

Definition toNum (v : value) : num :=
  match v with
  | VNum q => Some q
  | _ => None
  end.

Definition nadd (a b : num) : num :=
  match a, b with Some p, Some q => Some (p + q)%Q | _, _ => None end.
Definition nsub (a b : num) : num :=
  match a, b with Some p, Some q => Some (p - q)%Q | _, _ => None end.
Definition nmul (a b : num) : num :=
  match a, b with Some p, Some q => Some (p * q)%Q | _, _ => None end.
Definition ndiv (a b : num) : num :=
  match a, b with
  | Some p, Some q => if Qeq_bool q 0 then None else Some (p / q)%Q
  | _, _ => None
  end.

(** [v.k] where reading a member of [undefined] or [null] throws. *)
Definition member (k : string) (v : value) : JsError + value :=
  match v with
  | VUndef | VNull =>
      inl (TypeError ("Cannot read properties of undefined (reading '" +:+ k +:+ "')"))
  | _ => inr (get k v)
  end.

(** The display names of [diseaseInfo], by key. *)
Definition diseaseInfo : list (string * string) :=
  [("black spot", "Black Spot Disease");
   ("canker", "Citrus Canker");
   ("greening", "Citrus Greening (Huanglongbing)");
   ("healthy calamansi", "Healthy Calamansi");
   ("scab", "Citrus Scab");
   ("thrips", "Thrips Damage")]%string.

Fixpoint diseaseName (key : string) (table : list (string * string)) : option string :=
  match table with
  | [] => None
  | (k, n) :: r => if String.eqb key k then Some n else diseaseName key r
  end.

Definition boxColors : list string :=
  ["#00FF00"; "#FF00FF"; "#00FFFF"; "#FFFF00"; "#FF6600"; "#FF0066"]%string.

Definition hexDigit (c : ascii) : Z :=
  let n := Z.of_nat (nat_of_ascii c) in
  if (48 <=? n) && (n <=? 57) then n - 48
  else if (65 <=? n) && (n <=? 70) then n - 55
  else if (97 <=? n) && (n <=? 102) then n - 87
  else 0.

(** [parseInt(s, 16)] on a text of hexadecimal digits. *)
Definition parseHex (s : string) : Z :=
  fold_left (fun acc c => 16 * acc + hexDigit c) (list_ascii_of_string s) 0.

Inductive Style :=
| Css (s : string)
| Rgba (r g b : Z) (a : Q).

(** The label text [`${name} (${confidence}%)`], kept in its two parts. *)
Record Label := { label_name : string; label_confidence : value }.

Inductive Draw :=
| DrawImage
| StrokeRect (strokeStyle : string) (lineWidth : Z) (x y w h : num)
| FillRect (fillStyle : Style) (x y w h : num)
| FillText (fillStyle font : string) (text : Label) (x y : num).

(** The body of the [forEach] callback (lines 58-93): what it draws, and the
    exception that ends it early, if any. The assignment of line 78 is
    superseded by the one of line 83 before anything is filled. *)
Definition drawBox (measureText : Label -> Q) (scaleX scaleY : num)
    (pred : value) (index : nat) : list Draw * option JsError :=
  match member "boundingBox" pred with
  | inl e => ([], Some e)
  | inr boundingBox =>
      let color := nth (index mod length boxColors) boxColors ""%string in
      match member "x" boundingBox with
      | inl e => ([], Some e)
      | inr bx =>
          let x := nmul (nsub (toNum bx)
                           (ndiv (toNum (get "width" boundingBox)) (Some 2%Q))) scaleX in
          let y := nmul (nsub (toNum (get "y" boundingBox))
                           (ndiv (toNum (get "height" boundingBox)) (Some 2%Q))) scaleY in
          let width := nmul (toNum (get "width" boundingBox)) scaleX in
          let height := nmul (toNum (get "height" boundingBox)) scaleY in
          let box := StrokeRect color 3 x y width height in
          match get "class" pred with
          | VStr c =>
              let classKey := JsString.toLowerCase c in
              let name := default c (diseaseName classKey diseaseInfo) in
              let r := parseHex (substring 1 2 color) in
              let g := parseHex (substring 3 2 color) in
              let b := parseHex (substring 5 2 color) in
              let labelText :=
                {| label_name := name; label_confidence := get "confidence" pred |} in
              let textWidth := measureText labelText in
              ([box;
                FillRect (Rgba r g b (8 # 10)) x (nsub y (Some 25%Q))
                  (Some (textWidth + 10)%Q) (Some 25%Q);
                FillText "#000000" "bold 16px Arial" labelText
                  (nadd x (Some 5%Q)) (nsub y (Some 7%Q))],
               None)
          | _ =>
              ([box],
               Some (TypeError "Cannot read properties of undefined (reading 'toLowerCase')"))
          end
      end
  end.

(** [predictions.forEach(...)] from the given index on. *)
Fixpoint drawBoxes (measureText : Label -> Q) (scaleX scaleY : num)
    (predictions : list value) (index : nat) : list Draw * option JsError :=
  match predictions with
  | [] => ([], None)
  | pred :: rest =>
      match drawBox measureText scaleX scaleY pred index with
      | (ds, Some e) => (ds, Some e)
      | (ds, None) =>
          let '(ds', e) := drawBoxes measureText scaleX scaleY rest (S index) in
          (ds ++ ds', e)
      end
  end.

Record Canvas := {
  canvas_width : Q;
  canvas_height : Q;
  drawn : list Draw;              (* oldest first *)
  raised : option JsError
}.

(** [drawImageWithBoundingBoxes(imageSrc, predictions, originalWidth,
    originalHeight)], once the image has loaded with the given size. *)
Definition drawImageWithBoundingBoxes (measureText : Label -> Q)
    (img_width img_height : Q) (predictions : list value)
    (originalWidth originalHeight : value) : Canvas :=
  let scaleX := ndiv (Some img_width) (toNum originalWidth) in
  let scaleY := ndiv (Some img_height) (toNum originalHeight) in
  let '(ds, e) := drawBoxes measureText scaleX scaleY predictions 0 in
  {| canvas_width := img_width; canvas_height := img_height;
     drawn := DrawImage :: ds; raised := e |}.

(** The rectangles stroked, in drawing order. *)
Definition strokes (ds : list Draw) : list (num * num * num * num) :=
  flat_map (fun d => match d with
                     | StrokeRect _ _ x y w h => [(x, y, w, h)]
                     | _ => []
                     end) ds.

End Renderer.


(** ** Sample inputs *)

Definition prediction (label : string) (c : Q) : Prediction :=
  {| pred_class := Some label; pred_className := None; pred_confidence := Some c;
     pred_x := Some 320%Q; pred_y := Some 320%Q;
     pred_width := Some 100%Q; pred_height := Some 100%Q |}.

Definition answer (l : list Prediction) : ModelResponse :=
  {| predictions := Some l; top_prediction := None; image := None |}.

Definition upload : File :=
  {| filepath := "/tmp/upload_1"; mimetype := Some "image/jpeg"%string;
     file_size := 2048; file_content := "/9j/4AAQSkZJRg==" |}.

Definition sample_env (paused : option string) (first second : FetchOutcome) : Env :=
  {| ALLOWED_ORIGIN := None; RATE_LIMIT_PAUSED_var := paused;
     ROBOFLOW_MODEL1_URL := Some "https://detect.example/verify/1"%string;
     ROBOFLOW_MODEL2_URL := Some "https://detect.example/disease/3"%string;
     ROBOFLOW_API_KEY := Some "key"%string;
     NODE_ENV := None; clock := 1700000000000;
     formOutcome := Parsed (FileArray [upload]) [];
     fetchOutcome := fun n => match n with O => first | _ => second end;
     unlinkError := fun _ => None;
     roundPercent := fun c => Qfloor (c * 100 + (1 # 2)) |}.

Definition post_request : Request :=
  {| method := "POST";
     req_headers := {[ "x-forwarded-for"%string := "203.0.113.7, 10.0.0.1"%string ]};
     remoteAddress := None |}.

(** A process in which nothing has happened yet. *)
Definition idle : State :=
  {| fs := ∅; rateLimitMap := ∅; uploadedFilePath := None;
     resHeaders := []; fetches := 0%nat; trace := [] |}.

Definition disease_answer : ModelResponse :=
  answer [prediction "black spot" (81 # 100); prediction "healthy calamansi" (10 # 100)].

(** ** Reasoning about handler code *)

(** [wp R T c Q s]: run from [s], [c] yields a value and state in [Q],
    returns a response and state in [R], or throws an error and state in [T]. *)
Definition wp {A} (R : Response -> State -> Prop) (T : JsError -> State -> Prop)
    (c : M A) (Q : A -> State -> Prop) (s : State) : Prop :=
  match c s with
  | (Val a, s') => Q a s'
  | (Ret r, s') => R r s'
  | (Thrown e, s') => T e s'
  end.

(** What [deleteImageFile] leaves behind: without the file, when it was
    there and [fs.unlinkSync] did not fail. *)
Definition unlinked (env : Env) (filePath : option string) (s : State) : State :=
  match filePath with
  | Some p =>
      if (truthy (Some p) && bool_decide (is_Some (fs s !! p)))%bool
      then match unlinkError env p with
           | Some _ => s
           | None => log_event (EvUnlink p) (set_fs (delete p (fs s)) s)
           end
      else s
  | None => s
  end.

Definition never {A} : A -> State -> Prop := fun _ _ => False.

(** What the [catch] block answers to the ReferenceError of line 344. *)
Definition server_error_response (env : Env) : Response :=
  {| status := 500;
     body := errorBody "An unexpected error occurred during detection" "server_error"
               [("details"%string,
                 if bool_decide (NODE_ENV env = Some "development"%string)
                 then VStr "rateLimit is not defined" else VUndef)] |}.


(** Center-coordinate geometry, and a prediction that carries it in its
    [boundingBox] member. *)
Record Geometry := { centerX : Q; centerY : Q; box_width : Q; box_height : Q }.

Definition has_geometry (pred : value) (g : Geometry) : Prop :=
  exists bb,
    get "boundingBox" pred = VObj bb /\
    assoc "x" bb = VNum (centerX g) /\ assoc "y" bb = VNum (centerY g) /\
    assoc "width" bb = VNum (box_width g) /\ assoc "height" bb = VNum (box_height g).

(** The rectangle of the specification: corner and size, scaled per axis. *)
Definition rectangle (scaleX scaleY : Q) (g : Geometry)
  : Renderer.num * Renderer.num * Renderer.num * Renderer.num :=
  (Some ((centerX g - box_width g / 2) * scaleX)%Q,
   Some ((centerY g - box_height g / 2) * scaleY)%Q,
   Some (box_width g * scaleX)%Q,
   Some (box_height g * scaleY)%Q).

Definition sample_box : value :=
  VObj [("class"%string, VStr "black spot"); ("confidence"%string, numZ 81);
        ("boundingBox"%string,
         VObj [("x"%string, VNum 320); ("y"%string, VNum 320);
               ("width"%string, VNum 100); ("height"%string, VNum 100)])].


(** ** Further definitions used by the properties *)

(** The first and last character of a text, and whether a character occurs. *)
Definition first_char (s : string) : option ascii :=
  match s with
  | String c _ => Some c
  | EmptyString => None
  end.

Fixpoint last_char (s : string) : option ascii :=
  match s with
  | EmptyString => None
  | String c EmptyString => Some c
  | String _ r => last_char r
  end.

Fixpoint contains_char (c : ascii) (s : string) : bool :=
  match s with
  | EmptyString => false
  | String d r => (Ascii.eqb c d || contains_char c r)%bool
  end.

(** Calls of [checkRateLimit] by any clients at any clock readings, in order:
    the answers and the map afterwards. *)
Fixpoint serve (calls : list (Z * string)) (m : gmap string UserRecord)
  : list RateLimit * gmap string UserRecord :=
  match calls with
  | [] => ([], m)
  | (now, ip) :: rest =>
      let '(a, m') := checkRateLimit now ip m in
      let '(answers, m'') := serve rest m' in
      (a :: answers, m'')
  end.

(** Every record counts between one call and the quota. *)
Definition counts_in_range (m : gmap string UserRecord) : Prop :=
  forall ip r, m !! ip = Some r -> 1 <= count r <= MAX_REQUESTS.

(** The origin configured for CORS, and whether the handler reflects [o]. *)
Definition configured_origin (env : Env) : string :=
  match ALLOWED_ORIGIN env with
  | Some a => if String.eqb a "" then "http://localhost:3000"%string else a
  | None => "http://localhost:3000"%string
  end.

Definition reflects (env : Env) (o : string) : bool :=
  (negb (String.eqb o "")
   && (String.eqb o (configured_origin env) || JsString.includes o ".vercel.app"))%bool.

(** The headers the handler sets for a request, in order. *)
Definition headers_set (env : Env) (req : Request) (m : gmap string UserRecord)
  : list (string * value) :=
  match req_headers req !! "origin"%string with
  | Some o => if reflects env o
              then [("Access-Control-Allow-Origin"%string, VStr o)] else []
  | None => []
  end
  ++ [("Access-Control-Allow-Methods"%string, VStr "POST, OPTIONS");
      ("Access-Control-Allow-Headers"%string, VStr "Content-Type")]
  ++ (if (String.eqb (method req) "POST"
          && negb (bool_decide (RATE_LIMIT_PAUSED_var env = Some "true"%string)))%bool
      then [("X-RateLimit-Limit"%string, numZ MAX_REQUESTS);
            ("X-RateLimit-Remaining"%string,
             numZ (remaining (checkRateLimit (clock env) (getClientIP req) m).1))]
      else []).

(** The response of the handler, by the request's method. *)
Definition answer_by_method (env : Env) (req : Request) : Response :=
  if String.eqb (method req) "OPTIONS" then {| status := 200; body := VUndef |}
  else if String.eqb (method req) "POST" then server_error_response env
  else {| status := 405; body := errorBody "Method not allowed" "method_error" [] |}.

(** The rate-limit map after the handler has served a request. *)
Definition map_after (env : Env) (req : Request) (m : gmap string UserRecord)
  : gmap string UserRecord :=
  if (String.eqb (method req) "POST"
      && negb (bool_decide (RATE_LIMIT_PAUSED_var env = Some "true"%string)))%bool
  then (checkRateLimit (clock env) (getClientIP req) m).2 else m.

(** What a trace shows of the audit log and of the outbound calls. *)
Definition logged (t : list Event) : list value :=
  omap (fun e => match e with EvLogDetection v => Some v | _ => None end) t.

Definition fetched (t : list Event) : list string :=
  omap (fun e => match e with EvFetch u => Some u | _ => None end) t.


(** Answers of the verification model in the scenarios of the
    specification: a foreign plant, a label that contains the expected one at
    the threshold, no prediction at all, and a single [top] object. *)
Definition tomato_answer : FetchOutcome :=
  JsonBody (answer [prediction "tomato" (95 # 100)]).

Definition leaf_answer : FetchOutcome :=
  JsonBody (answer [prediction "Calamansi Leaf" (50 # 100)]).

Definition empty_answer : FetchOutcome := JsonBody (answer []).

Definition top_only_answer : FetchOutcome :=
  JsonBody {| predictions := None;
              top_prediction := Some (prediction "calamansi" (92 # 100));
              image := None |}.

Definition calamansi_answer : FetchOutcome :=
  JsonBody (answer [prediction "calamansi" (92 # 100)]).

(** An environment in development mode. *)
Definition development (env : Env) : Env :=
  {| ALLOWED_ORIGIN := ALLOWED_ORIGIN env;
     RATE_LIMIT_PAUSED_var := RATE_LIMIT_PAUSED_var env;
     ROBOFLOW_MODEL1_URL := ROBOFLOW_MODEL1_URL env;
     ROBOFLOW_MODEL2_URL := ROBOFLOW_MODEL2_URL env;
     ROBOFLOW_API_KEY := ROBOFLOW_API_KEY env;
     NODE_ENV := Some "development"%string; clock := clock env;
     formOutcome := formOutcome env; fetchOutcome := fetchOutcome env;
     unlinkError := unlinkError env; roundPercent := roundPercent env |}.

(** An environment in which [fs.unlinkSync] fails on the path [p]. *)
Definition failing_unlink (p : string) (env : Env) : Env :=
  {| ALLOWED_ORIGIN := ALLOWED_ORIGIN env;
     RATE_LIMIT_PAUSED_var := RATE_LIMIT_PAUSED_var env;
     ROBOFLOW_MODEL1_URL := ROBOFLOW_MODEL1_URL env;
     ROBOFLOW_MODEL2_URL := ROBOFLOW_MODEL2_URL env;
     ROBOFLOW_API_KEY := ROBOFLOW_API_KEY env;
     NODE_ENV := NODE_ENV env; clock := clock env;
     formOutcome := formOutcome env; fetchOutcome := fetchOutcome env;
     unlinkError := fun q => if String.eqb q p
                             then Some "EPERM: operation not permitted, unlink"%string
                             else unlinkError env q;
     roundPercent := roundPercent env |}.

(** A temp directory that holds the sample upload. *)
Definition with_upload (s : State) : State :=
  set_fs (<[filepath upload := file_content upload]> (fs s)) s.

(** An entry of [allPredictions] as the handler would build it, and a result
    as the upload page would store it for the two-prediction answer of the
    specification. *)
Definition sample_entry (label : string) (percent : Z) : value :=
  VObj [("class"%string, VStr label); ("confidence"%string, numZ percent)].

Definition sample_result : value :=
  VObj [("model1"%string,
         VObj [("class"%string, VStr "calamansi"); ("confidence"%string, VStr "92")]);
        ("model2"%string,
         VObj [("class"%string, VStr "black spot"); ("confidence"%string, VStr "81");
               ("boundingBox"%string,
                VObj [("x"%string, VNum 320); ("y"%string, VNum 320);
                      ("width"%string, VNum 100); ("height"%string, VNum 100)])]);
        ("imageSrc"%string, VStr "data:image/jpeg;base64,/9j/4AAQSkZJRg==");
        ("imageWidth"%string, VNum 640);
        ("imageHeight"%string, VNum 640);
        ("allPredictions"%string,
         VArr [sample_entry "black spot" 81; sample_entry "healthy calamansi" 10]);
        ("timestamp"%string, VDate 1700000000000)].


(** ** The database helper (lib/database.js) *)

(** JavaScript truthiness of a value, and [a || b]. *)
Definition truthyV (v : value) : bool :=
  match v with
  | VUndef | VNull => false
  | VBool b => b
  | VNum q => negb (Qeq_bool q 0)
  | VStr s => negb (String.eqb s "")
  | VDate _ | VArr _ | VObj _ => true
  end.

Definition orV (a b : value) : value := if truthyV a then a else b.

Module Database.

(** What is sent through the pool: the INSERT of lines 30-45 with its
    parameters, or the SELECT of lines 76-87 with [days] spliced in. *)
Inductive Statement :=
| InsertDetection (values : list value)
| SelectStats (days : value).

(** What awaiting [db.query] gives. *)
Inductive QueryOutcome :=
| QueryRejected (e : JsError)
| QueryResult (rows : list value).

Record DbEnv := {
  DATABASE_URL : option string;
  db_clock : Z;                                (* [new Date()] *)
  queryOutcome : Statement -> QueryOutcome
}.

(** The module's [pool] (the connection string it was created with, once it
    has been created) and what the process has done with the database. *)
Record Db := {
  pool : option string;
  pools_created : nat;
  statements : list Statement                  (* oldest first *)
}.

(** [getPool()] *)
Definition getPool (env : DbEnv) (d : Db) : option string * Db :=
  if (negb (bool_decide (is_Some (pool d))) && truthy (DATABASE_URL env))%bool then
    (DATABASE_URL env,
     {| pool := DATABASE_URL env; pools_created := S (pools_created d);
        statements := statements d |})
  else (pool d, d).

(** [await db.query(...)] *)
Definition query (env : DbEnv) (st : Statement) (d : Db) : (JsError + list value) * Db :=
  let d' := {| pool := pool d; pools_created := pools_created d;
               statements := statements d ++ [st] |} in
  match queryOutcome env st with
  | QueryRejected e => (inl e, d')
  | QueryResult rows => (inr rows, d')
  end.

(** Lines 47-59: the parameters of the INSERT. Reading a member of a [data]
    that is [undefined] or [null] throws. *)
Definition insert_values (env : DbEnv) (data : value) : JsError + list value :=
  match Renderer.member "timestamp" data with
  | inl e => inl e
  | inr timestamp =>
      inr [orV timestamp (VDate (db_clock env));
           orV (get "ip" data) (VStr "unknown");
           orV (get "model1Class" data) VNull;
           orV (get "model1Confidence" data) VNull;
           orV (get "model2Class" data) VNull;
           orV (get "model2Confidence" data) VNull;
           orV (get "size" (get "imageMeta" data)) VNull;
           orV (get "type" (get "imageMeta" data)) VNull;
           orV (get "width" (get "imageMeta" data)) VNull;
           orV (get "height" (get "imageMeta" data)) VNull;
           VBool true]
  end.

(** Lines 29-63: the [try] block of [logDetection]. *)
Definition logDetection_try (env : DbEnv) (data : value) (d : Db)
  : (JsError + value) * Db :=
  match insert_values env data with
  | inl e => (inl e, d)
  | inr values =>
      match query env (InsertDetection values) d with
      | (inl e, d') => (inl e, d')
      | (inr rows, d') =>
          match rows with
          | [] => (inl (TypeError "Cannot read properties of undefined (reading 'id')"), d')
          | row :: _ =>
              match Renderer.member "id" row with
              | inl e => (inl e, d')
              | inr id => (inr id, d')
              end
          end
      end
  end.

(** [logDetection(data)]: the value the promise resolves to, or the error it
    rejects with. *)
Definition logDetection (env : DbEnv) (data : value) (d : Db) : (JsError + value) * Db :=
  let '(db, d1) := getPool env d in
  match db with
  | None => (inr VUndef, d1)
  | Some _ =>
      match logDetection_try env data d1 with
      | (inl error, d2) => (inr VUndef, d2)
      | (inr id, d2) => (inr id, d2)
      end
  end.

(** [getStats(days = 7)] *)
Definition getStats (env : DbEnv) (days : value) (d : Db) : (JsError + value) * Db :=
  let days := match days with VUndef => VNum 7 | _ => days end in
  let '(db, d1) := getPool env d in
  match db with
  | None => (inr VNull, d1)
  | Some _ =>
      match query env (SelectStats days) d1 with
      | (inl error, d2) => (inr VNull, d2)
      | (inr rows, d2) => (inr (VArr rows), d2)
      end
  end.

(** A call of one of the two exported functions. *)
Inductive Call :=
| CallLogDetection (data : value)
| CallGetStats (days : value).

Definition call (env : DbEnv) (c : Call) (d : Db) : (JsError + value) * Db :=
  match c with
  | CallLogDetection data => logDetection env data d
  | CallGetStats days => getStats env days d
  end.

(** A sequence of calls, each in its own environment (the process
    environment and the database may change between calls). *)
Fixpoint calls (l : list (DbEnv * Call)) (d : Db) : Db :=
  match l with
  | [] => d
  | (env, c) :: r => calls r (snd (call env c d))
  end.

(** A freshly loaded module. *)
Definition fresh : Db := {| pool := None; pools_created := 0; statements := [] |}.

End Database.

(** ** The single-box renderer of the earlier results page (lines 29-71) *)

Module SingleBox.

Import Renderer.

(** [drawImageWithBoundingBox(imageSrc, boundingBox, confidence,
    diseaseClass, originalWidth, originalHeight)], once the image has loaded
    with the given size. *)
Definition drawImageWithBoundingBox (measureText : Label -> Q)
    (img_width img_height : Q) (boundingBox confidence : value) (diseaseClass : string)
    (originalWidth originalHeight : value) : Canvas :=
  let scaleX := ndiv (Some img_width) (toNum originalWidth) in
  let scaleY := ndiv (Some img_height) (toNum originalHeight) in
  match member "x" boundingBox with
  | inl e =>
      {| canvas_width := img_width; canvas_height := img_height;
         drawn := [DrawImage]; raised := Some e |}
  | inr bx =>
      let x := nmul (nsub (toNum bx)
                       (ndiv (toNum (get "width" boundingBox)) (Some 2%Q))) scaleX in
      let y := nmul (nsub (toNum (get "y" boundingBox))
                       (ndiv (toNum (get "height" boundingBox)) (Some 2%Q))) scaleY in
      let width := nmul (toNum (get "width" boundingBox)) scaleX in
      let height := nmul (toNum (get "height" boundingBox)) scaleY in
      let labelText := {| label_name := diseaseClass; label_confidence := confidence |} in
      let textWidth := measureText labelText in
      {| canvas_width := img_width; canvas_height := img_height;
         drawn := [DrawImage;
                   StrokeRect "#00FF00" 3 x y width height;
                   FillRect (Css "rgba(0, 255, 0, 0.7)") x (nsub y (Some 25%Q))
                     (Some (textWidth + 10)%Q) (Some 25%Q);
                   FillText "#000000" "bold 16px Arial" labelText
                     (nadd x (Some 5%Q)) (nsub y (Some 7%Q))];
         raised := None |}
  end.

End SingleBox.

(** A drawing operation without the style of its fill. *)
Definition unfilled (d : Renderer.Draw) : Renderer.Draw :=
  match d with
  | Renderer.FillRect _ x y w h => Renderer.FillRect (Renderer.Css "") x y w h
  | _ => d
  end.

(** The colours of the rectangles stroked, in drawing order. *)
Definition stroke_colours (ds : list Renderer.Draw) : list string :=
  flat_map (fun d => match d with
                     | Renderer.StrokeRect c _ _ _ _ _ => [c]
                     | _ => []
                     end) ds.

(** A prediction on which the callback of the multi-box renderer completes:
    it has a [boundingBox] object and a [class] text. *)
Definition drawable (pred : value) : Prop :=
  (exists bb, get "boundingBox" pred = VObj bb) /\ (exists c, get "class" pred = VStr c).

(** ** JSON *)

(** [JSON.parse(JSON.stringify(v))]: members that are undefined are left
    out, undefined elements of an array become null. *)
Fixpoint json (v : value) : value :=
  match v with
  | VArr l => VArr (map (fun x => match x with VUndef => VNull | _ => json x end) l)
  | VObj o =>
      VObj ((fix members (o : list (string * value)) : list (string * value) :=
               match o with
               | [] => []
               | (k, x) :: r =>
                   match x with
                   | VUndef => members r
                   | _ => (k, json x) :: members r
                   end
               end) o)
  | _ => v
  end.

(** ** The upload page (lines 1-205) *)

Module UploadPage.

Definition MAX_FILE_SIZE : Z := 10 * 1024 * 1024.
Definition ALLOWED_TYPES : list string :=
  ["image/jpeg"; "image/jpg"; "image/png"; "image/webp"]%string.
Definition MIN_IMAGE_SIZE : Z := 100.
Definition MAX_IMAGE_SIZE : Z := 4096.

(** A [File] of the browser. *)
Record BrowserFile := { file_name : string; file_type : string; size : Z }.

Inductive Validation :=
| Valid
| Invalid (error : string).

(** [validateFile(file)] *)
Definition validateFile (file : BrowserFile) : Validation :=
  if size file >? MAX_FILE_SIZE then
    Invalid "File size exceeds 10MB. Please choose a smaller image."
  else if negb (existsb (String.eqb (file_type file)) ALLOWED_TYPES) then
    Invalid "Invalid file type. Please upload a JPEG, PNG, or WebP image."
  else Valid.

(** The page: its two variables, the object URLs that are live (created and
    not revoked; a URL is the number of the [createObjectURL] call that made
    it), and what the document shows. *)
Record Page := {
  currentImageUrl : option nat;
  currentFile : option BrowserFile;
  live : gset nat;
  created : nat;
  input_cleared : bool;                 (* [fileInput.value = ''] was the last write *)
  detect_disabled : bool;               (* [detectBtn.disabled] *)
  preview_src : option nat;             (* [previewImg.src] *)
  preview_alt : string;
  preview_shown : bool;
  alerts : list string                  (* oldest first *)
}.

(** The page as loaded; the button is taken to start disabled, the
    [change] handler being what enables it. *)
Definition loaded : Page :=
  {| currentImageUrl := None; currentFile := None; live := ∅; created := 0;
     input_cleared := false; detect_disabled := true; preview_src := None;
     preview_alt := ""; preview_shown := false; alerts := [] |}.

(** [URL.revokeObjectURL(currentImageUrl)]; revoking null does nothing. *)
Definition revoke_current (p : Page) : Page :=
  match currentImageUrl p with
  | Some u =>
      {| currentImageUrl := currentImageUrl p; currentFile := currentFile p;
         live := live p ∖ {[u]}; created := created p;
         input_cleared := input_cleared p; detect_disabled := detect_disabled p;
         preview_src := preview_src p; preview_alt := preview_alt p;
         preview_shown := preview_shown p; alerts := alerts p |}
  | None => p
  end.

(** Lines 56-60 and 95 of [loadImagePreview]: the part that runs at once. *)
Definition loadImagePreview (p : Page) : Page :=
  let p1 := if bool_decide (is_Some (currentImageUrl p)) then revoke_current p else p in
  let u := created p1 in
  {| currentImageUrl := Some u; currentFile := currentFile p1;
     live := {[u]} ∪ live p1; created := S u;
     input_cleared := input_cleared p1; detect_disabled := detect_disabled p1;
     preview_src := preview_src p1; preview_alt := preview_alt p1;
     preview_shown := preview_shown p1; alerts := alerts p1 |}.

(** The three refusals of a preview image (lines 64-70, 73-79, 87-93). *)
Definition refuse_image (message : string) (p : Page) : Page :=
  let p1 := revoke_current p in
  {| currentImageUrl := None; currentFile := currentFile p1;
     live := live p1; created := created p1;
     input_cleared := true; detect_disabled := true;
     preview_src := preview_src p1; preview_alt := preview_alt p1;
     preview_shown := preview_shown p1; alerts := alerts p1 ++ [message] |}.

Inductive PageEvent :=
| Change (file : option BrowserFile)       (* [change] on the file input, [files[0]] *)
| ImageLoaded (file : BrowserFile) (width height : Z)
                                           (* [onload] of a preview image of [file] *)
| ImageFailed                              (* [onerror] of a preview image *)
| BeforeUnload.

Definition step (e : PageEvent) (p : Page) : Page :=
  match e with
  | Change None => p
  | Change (Some file) =>
      match validateFile file with
      | Invalid error =>
          {| currentImageUrl := currentImageUrl p; currentFile := currentFile p;
             live := live p; created := created p;
             input_cleared := true; detect_disabled := detect_disabled p;
             preview_src := preview_src p; preview_alt := preview_alt p;
             preview_shown := preview_shown p; alerts := alerts p ++ [error] |}
      | Valid =>
          let p1 :=
            loadImagePreview
              {| currentImageUrl := currentImageUrl p; currentFile := Some file;
                 live := live p; created := created p;
                 input_cleared := false; detect_disabled := detect_disabled p;
                 preview_src := preview_src p; preview_alt := preview_alt p;
                 preview_shown := preview_shown p; alerts := alerts p |} in
          {| currentImageUrl := currentImageUrl p1; currentFile := currentFile p1;
             live := live p1; created := created p1;
             input_cleared := input_cleared p1; detect_disabled := false;
             preview_src := preview_src p1; preview_alt := preview_alt p1;
             preview_shown := preview_shown p1; alerts := alerts p1 |}
      end
  | ImageLoaded file width height =>
      if (width <? MIN_IMAGE_SIZE) || (height <? MIN_IMAGE_SIZE) then
        refuse_image
          ("Image is too small (" +:+ JsString.ofZ width +:+ "x" +:+ JsString.ofZ height
           +:+ "). Minimum size is " +:+ JsString.ofZ MIN_IMAGE_SIZE +:+ "x"
           +:+ JsString.ofZ MIN_IMAGE_SIZE +:+ " pixels.") p
      else if (width >? MAX_IMAGE_SIZE) || (height >? MAX_IMAGE_SIZE) then
        refuse_image
          ("Image is too large (" +:+ JsString.ofZ width +:+ "x" +:+ JsString.ofZ height
           +:+ "). Maximum size is " +:+ JsString.ofZ MAX_IMAGE_SIZE +:+ "x"
           +:+ JsString.ofZ MAX_IMAGE_SIZE +:+ " pixels.") p
      else
        {| currentImageUrl := currentImageUrl p; currentFile := currentFile p;
           live := live p; created := created p;
           input_cleared := input_cleared p; detect_disabled := detect_disabled p;
           preview_src := currentImageUrl p;
           preview_alt := "Preview of " +:+ file_name file;
           preview_shown := true; alerts := alerts p |}
  | ImageFailed => refuse_image "Failed to load image. The file may be corrupted." p
  | BeforeUnload =>
      if bool_decide (is_Some (currentImageUrl p)) then revoke_current p else p
  end.

(** The page after a sequence of events, oldest first. *)
Definition run (events : list PageEvent) (p : Page) : Page :=
  fold_left (fun p e => step e p) events p.

(** What awaiting [fetch] and [response.json()] gives: the call rejects, or
    there is a response with a status and a body, which is JSON or makes
    [response.json()] reject. *)
Inductive FetchResult :=
| FetchFailed (e : JsError)
| Answered (status : Z) (body : JsError + value).

(** How [processDetection] ends: the result is stored and the browser sent to
    the results page, or a message is shown. *)
Inductive Outcome :=
| Redirected (stored : value) (href : string)
| Alerted (message : string).

Section Detection.

(** [String(v)], and [sessionStorage.setItem], which may throw (quota). *)
Variable toStr : value -> string.
Variable setItem : value -> option JsError.

(** [new Error(v)]: the message is the text of [v], empty when [v] is
    undefined. *)
Definition new_Error (v : value) : JsError :=
  Error (match v with VUndef => "" | VStr s => s | _ => toStr v end).

(** [v.toString()] *)
Definition toString (v : value) : JsError + value :=
  match v with
  | VUndef | VNull =>
      inl (TypeError "Cannot read properties of undefined (reading 'toString')")
  | VStr _ | VDate _ => inr v
  | _ => inr (VStr (toStr v))
  end.

(** [response.ok] *)
Definition ok (status : Z) : bool := (200 <=? status) && (status <=? 299).

(** Lines 113-160: the [try] block of [processDetection]. *)
Definition processDetection_try (res : FetchResult) : JsError + value :=
  match res with
  | FetchFailed e => inl e
  | Answered status (inl e) => inl e
  | Answered status (inr data) =>
      if negb (ok status) then
        if status =? 429 then
          inl (Error "Too many detection attempts. Please wait a moment and try again.")
        else
          match (if status =? 400 then Renderer.member "type" data else inr VUndef) with
          | inl e => inl e
          | inr type =>
              if (status =? 400)
                 && match type with VStr t => String.eqb t "validation_error" | _ => false end
              then
                match Renderer.member "error" data with
                | inl e => inl e
                | inr error => inl (new_Error error)
                end
              else
                match Renderer.member "error" data with
                | inl e => inl e
                | inr error =>
                    inl (new_Error (orV error (VStr "Detection failed. Please try again.")))
                end
          end
      else
        match Renderer.member "model1" data with
        | inl e => inl e
        | inr model1 =>
        match Renderer.member "class" model1 with
        | inl e => inl e
        | inr class1 =>
        match toString (get "confidence" model1) with
        | inl e => inl e
        | inr confidence1 =>
        match Renderer.member "class" (get "model2" data) with
        | inl e => inl e
        | inr class2 =>
        match toString (get "confidence" (get "model2" data)) with
        | inl e => inl e
        | inr confidence2 =>
            let resultData :=
              VObj [("model1"%string,
                     VObj [("class"%string, class1); ("confidence"%string, confidence1)]);
                    ("model2"%string,
                     VObj [("class"%string, class2); ("confidence"%string, confidence2);
                           ("boundingBox"%string,
                            get "boundingBox" (get "model2" data))]);
                    ("imageSrc"%string, get "imageData" data);
                    ("imageWidth"%string, get "imageWidth" data);
                    ("imageHeight"%string, get "imageHeight" data);
                    ("allPredictions"%string, get "allPredictions" data);
                    ("timestamp"%string, get "timestamp" data)] in
            match setItem (json resultData) with
            | Some e => inl e
            | None => inr (json resultData)
            end
        end end end end end
  end.

(** [handleDetectionError(error)]: the message shown. *)
Definition handleDetectionError (error : JsError) : string :=
  let errorMessage :=
    if String.eqb (error_message error) ""
    then "An unexpected error occurred during detection."%string
    else error_message error in
  if JsString.includes (error_message error) "Failed to fetch"
     || JsString.includes (error_message error) "NetworkError"
  then "Network error. Please check your internet connection and try again."%string
  else errorMessage.

(** [processDetection()] *)
Definition processDetection (res : FetchResult) : Outcome :=
  match processDetection_try res with
  | inl error => Alerted (handleDetectionError error)
  | inr stored => Redirected stored "./result.html"
  end.

End Detection.

End UploadPage.

(** ** The results pages (from line 100, and lines 74-141 of the earlier one) *)

Module ResultsPage.

Import Renderer.

(** Which of the elements the page looks up are in the document. *)
Record Dom := {
  has_badge : bool;
  has_name : bool;
  has_confidence : bool;
  has_description : bool
}.

(** The description shown: that of an entry of [diseaseInfo], or the
    fallback text. *)
Inductive Description :=
| DescriptionOf (key : string)
| FallbackDescription.

Inductive Effect :=
| Alert (message : string)
| Navigate (href : string)
| Badge (display : string) (confidence : value)
| Draws (canvas : Canvas)                        (* once the image has loaded *)
| NameText (name : string)
| NameHtml (primary : string) (additional : list Label)
| ConfidenceText (confidence : value)
| DescriptionText (d : Description).

(** [diseaseInfo[classKey] || { name: ..., description: ... }]; a label is
    taken not to name a member of [Object.prototype]. *)
Definition info_name (c : string) : string :=
  default c (diseaseName (JsString.toLowerCase c) diseaseInfo).

Definition info_description (c : string) : Description :=
  match diseaseName (JsString.toLowerCase c) diseaseInfo with
  | Some _ => DescriptionOf (JsString.toLowerCase c)
  | None => FallbackDescription
  end.

(** The renderer on a value that need not be an array. *)
Definition draw (measureText : Label -> Q) (img_width img_height : Q)
    (predictions originalWidth originalHeight : value) : Canvas :=
  match predictions with
  | VArr l =>
      drawImageWithBoundingBoxes measureText img_width img_height l
        originalWidth originalHeight
  | _ =>
      {| canvas_width := img_width; canvas_height := img_height;
         drawn := [DrawImage];
         raised := Some (TypeError "predictions.forEach is not a function") |}
  end.

(** Lines 173-176: the labels of the second and third predictions. *)
Fixpoint additional_labels (l : list value) : JsError + list Label :=
  match l with
  | [] => inr []
  | pred :: r =>
      match member "class" pred with
      | inl e => inl e
      | inr (VStr c) =>
          match additional_labels r with
          | inl e => inl e
          | inr ls =>
              inr ({| label_name := info_name c;
                      label_confidence := get "confidence" pred |} :: ls)
          end
      | inr _ =>
          inl (TypeError "Cannot read properties of undefined (reading 'toLowerCase')")
      end
  end.

Section Page.

Variable dom : Dom.
Variable measureText : Label -> Q.
Variables img_width img_height : Q.        (* the size of the image, once loaded *)
(** [v.length > 1] on a value that is neither an array nor a text. *)
Variable length_exceeds_1 : value -> bool.

Definition when (b : bool) (e : Effect) : list Effect := if b then [e] else [].

(** The [DOMContentLoaded] handler of the multi-box page on the item of
    sessionStorage, parsed; what it does, and the exception that ends it
    early, if any. *)
Definition onLoad (resultData : option value) : list Effect * option JsError :=
  match resultData with
  | None =>
      ([Alert "No detection results found. Redirecting to home page.";
        Navigate "index.html"], None)
  | Some result =>
      match member "model1" result with
      | inl e => ([], Some e)
      | inr model1 =>
          let model2 := get "model2" result in
          if negb (truthyV model1) || negb (truthyV model2) then
            ([Alert "Invalid result data. Please try again."; Navigate "index.html"], None)
          else
            let badge := when (has_badge dom) (Badge "none" (get "confidence" model1)) in
            (* 132-136 *)
            let predictions :=
              orV (get "allPredictions" result)
                (VArr [VObj [("class"%string, get "class" model2);
                             ("confidence"%string, get "confidence" model2);
                             ("boundingBox"%string, get "boundingBox" model2)]]) in
            (* 141-150 *)
            let drawing :=
              when (truthyV (get "imageSrc" result))
                (Draws (draw measureText img_width img_height predictions
                          (get "imageWidth" result) (get "imageHeight" result))) in
            (* 153 *)
            match get "class" model2 with
            | VStr c =>
                (* 167-185 *)
                match
                  (if has_name dom then
                     match get "allPredictions" result with
                     | VArr l =>
                         if (1 <? Z.of_nat (length l))%Z then
                           match additional_labels (take 2 (drop 1 l)) with
                           | inl e => inl ([NameText (info_name c)], e)
                           | inr ls =>
                               inr [NameText (info_name c); NameHtml (info_name c) ls]
                           end
                         else inr [NameText (info_name c)]
                     | VStr s =>
                         if (1 <? Z.of_nat (String.length s))%Z then
                           inl ([NameText (info_name c)],
                                TypeError "result.allPredictions.slice(...).map is not a function")
                         else inr [NameText (info_name c)]
                     | VDate _ =>
                         inl ([NameText (info_name c)],
                              TypeError "result.allPredictions.slice(...).map is not a function")
                     | other =>
                         if truthyV other && length_exceeds_1 other then
                           inl ([NameText (info_name c)],
                                TypeError "result.allPredictions.slice is not a function")
                         else inr [NameText (info_name c)]
                     end
                   else inr [])
                with
                | inl (shown, e) => (badge ++ drawing ++ shown, Some e)
                | inr shown =>
                    (badge ++ drawing ++ shown
                     ++ when (has_confidence dom) (ConfidenceText (get "confidence" model2))
                     ++ when (has_description dom) (DescriptionText (info_description c)),
                     None)
                end
            | _ =>
                (badge ++ drawing,
                 Some (TypeError "Cannot read properties of undefined (reading 'toLowerCase')"))
            end
      end
  end.

(** The [DOMContentLoaded] handler of the earlier, single-box page. *)
Definition onLoad_single (resultData : option value) : list Effect * option JsError :=
  match resultData with
  | None =>
      ([Alert "No detection results found. Redirecting to home page.";
        Navigate "index.html"], None)
  | Some result =>
      match member "model1" result with
      | inl e => ([], Some e)
      | inr model1 =>
          let model2 := get "model2" result in
          if negb (truthyV model1) || negb (truthyV model2) then
            ([Alert "Invalid result data. Please try again."; Navigate "index.html"], None)
          else
            let badge := when (has_badge dom) (Badge "block" (get "confidence" model1)) in
            (* 106 *)
            match get "class" model2 with
            | VStr c =>
                (* 116-127 *)
                let drawing :=
                  when (truthyV (get "imageSrc" result)
                        && truthyV (get "boundingBox" model2))
                    (Draws (SingleBox.drawImageWithBoundingBox measureText
                              img_width img_height
                              (get "boundingBox" model2) (get "confidence" model2)
                              (info_name c)
                              (get "imageWidth" result) (get "imageHeight" result))) in
                (badge ++ drawing
                 ++ when (has_name dom) (NameText (info_name c))
                 ++ when (has_confidence dom) (ConfidenceText (get "confidence" model2))
                 ++ when (has_description dom) (DescriptionText (info_description c)),
                 None)
            | _ =>
                (badge,
                 Some (TypeError "Cannot read properties of undefined (reading 'toLowerCase')"))
            end
      end
  end.

End Page.

(** The canvases a page draws. *)
Definition canvases (es : list Effect) : list Canvas :=
  flat_map (fun e => match e with Draws c => [c] | _ => [] end) es.

End ResultsPage.

(** At most one object URL is live, and it is the current one. *)
Definition one_url (p : UploadPage.Page) : Prop :=
  UploadPage.live p = ∅ \/
  exists u, UploadPage.currentImageUrl p = Some u /\ UploadPage.live p = {[u]}.

(** Sample inputs of the pages. *)
Definition sample_dom : ResultsPage.Dom :=
  {| ResultsPage.has_badge := true; ResultsPage.has_name := true;
     ResultsPage.has_confidence := true; ResultsPage.has_description := true |}.

Definition sample_toStr (v : value) : string :=
  match v with
  | VNum q => JsString.ofZ (Qfloor q)
  | _ => ""
  end.

(** * Properties *)

(** ** Rules for handler code *)

Section Rules.

Context (R : Response -> State -> Prop) (T : JsError -> State -> Prop).

Lemma wp_ret {A} (a : A) Q s : Q a s -> wp R T (ret a) Q s.
Proof. exact id. Qed.

Lemma wp_throw {A} e (Q : A -> State -> Prop) s : T e s -> wp R T (throw e) Q s.
Proof. exact id. Qed.

Lemma wp_bind {A B} (c : M A) (k : A -> M B) Q s :
  wp R T c (fun a s' => wp R T (k a) Q s') s -> wp R T (bind c k) Q s.
Proof. unfold wp, bind. destruct (c s) as [[a | r | e] s']; exact id. Qed.

Lemma wp_respond {A} c b (Q : A -> State -> Prop) s :
  R {| status := c; body := b |} (log_event (EvRespond c) s) -> wp R T (respond c b) Q s.
Proof. exact id. Qed.

Lemma wp_emit e Q s : Q tt (log_event e s) -> wp R T (emit e) Q s.
Proof. exact id. Qed.

Lemma wp_setHeader k v Q s : Q tt (add_header k v s) -> wp R T (setHeader k v) Q s.
Proof. exact id. Qed.

Lemma wp_set_uploadedFilePath p Q s :
  Q tt (set_tracked p s) -> wp R T (set_uploadedFilePath p) Q s.
Proof. exact id. Qed.

Lemma wp_get_uploadedFilePath Q s :
  Q (uploadedFilePath s) s -> wp R T get_uploadedFilePath Q s.
Proof. exact id. Qed.

Lemma deleteImageFile_run env o s :
  deleteImageFile env o s = (Val tt, unlinked env o s).
Proof.
  unfold deleteImageFile, unlinked, try_catch.
  destruct o as [p |]; [| now destruct (truthy None)].
  destruct (truthy (Some p)); [| reflexivity].
  unfold bind, existsSync, unlinkSync. cbn [andb].
  destruct (fs s !! p) as [c |] eqn:E.
  - rewrite bool_decide_eq_true_2 by eauto. rewrite E.
    now destruct (unlinkError env p).
  - rewrite bool_decide_eq_false_2; [reflexivity |]. now intros [? ?].
Qed.

Lemma wp_deleteImageFile env o Q s :
  Q tt (unlinked env o s) -> wp R T (deleteImageFile env o) Q s.
Proof. unfold wp. now rewrite deleteImageFile_run. Qed.

Lemma wp_callRoboflowAPI env b u k Q s :
  (let s' := log_event (EvFetch (u +:+ "?api_key=" +:+ k)) (count_fetch s) in
   match fetchOutcome env (fetches s) with
   | FetchRejected m => T (Error m) s'
   | HttpFailure st text =>
       T (Error ("Roboflow API error (" +:+ JsString.ofZ st +:+ "): " +:+ text)) s'
   | JsonBody r => Q r s'
   end) ->
  wp R T (callRoboflowAPI env b u k) Q s.
Proof.
  unfold wp, callRoboflowAPI. cbv zeta.
  destruct (fetchOutcome env (fetches s)); exact id.
Qed.

End Rules.

(** [try { c } catch (error) { h error }]: what [c] throws, [h] must handle. *)
Lemma wp_try_catch {A} R T (c : M A) h Q s :
  wp R (fun e s' => wp R T (h e) Q s') c Q s -> wp R T (try_catch c h) Q s.
Proof. unfold wp, try_catch. destruct (c s) as [[a | r | e] s']; exact id. Qed.

Lemma wp_returns {A} R (c : M A) s :
  wp R never c never s -> exists r s', c s = (Ret r, s') /\ R r s'.
Proof.
  unfold wp, never. destruct (c s) as [[a | r | e] s']; [tauto | eauto | tauto].
Qed.

(** One step of symbolic execution. *)
Ltac wp_step :=
  lazymatch goal with
  | |- wp _ _ (bind _ _) _ _ => apply wp_bind
  | |- wp _ _ (ret _) _ _ => apply wp_ret
  | |- wp _ _ (throw _) _ _ => apply wp_throw
  | |- wp _ _ (respond _ _) _ _ => apply wp_respond
  | |- wp _ _ (emit _) _ _ => apply wp_emit
  | |- wp _ _ (setHeader _ _) _ _ => apply wp_setHeader
  | |- wp _ _ (set_uploadedFilePath _) _ _ => apply wp_set_uploadedFilePath
  | |- wp _ _ get_uploadedFilePath _ _ => apply wp_get_uploadedFilePath
  | |- wp _ _ (deleteImageFile _ _) _ _ => apply wp_deleteImageFile
  | |- wp _ _ (callRoboflowAPI _ _ _ _) _ _ => apply wp_callRoboflowAPI; cbv zeta
  | |- wp _ _ (let x := _ in _) _ _ => cbv zeta
  | |- wp _ _ (if ?b then _ else _) _ _ =>
      first [ match goal with H : b = _ |- _ => rewrite H end | destruct b eqn:? ]
  | |- wp _ _ (match ?x with _ => _ end) _ _ =>
      first [ match goal with H : x = _ |- _ => rewrite H end | destruct x eqn:? ]
  | |- match ?x with _ => _ end =>
      first [ match goal with H : x = _ |- _ => rewrite H end | destruct x eqn:? ]
  end.


(** ** Rate limiter *)

Section RateLimiter.

Implicit Types (m : gmap string UserRecord) (ip : string) (now : Z).

Lemma checkRateLimit_fresh now ip m :
  m !! ip = None ->
  checkRateLimit now ip m =
    ({| allowed := true; remaining := MAX_REQUESTS - 1; rl_resetTime := None |},
     <[ip := {| count := 1; resetTime := now + RATE_LIMIT_WINDOW |}]> m).
Proof. intros H. unfold checkRateLimit. now rewrite H. Qed.

Lemma checkRateLimit_expired now ip m r :
  m !! ip = Some r -> resetTime r < now ->
  checkRateLimit now ip m =
    ({| allowed := true; remaining := MAX_REQUESTS - 1; rl_resetTime := None |},
     <[ip := {| count := 1; resetTime := now + RATE_LIMIT_WINDOW |}]> m).
Proof.
  intros H Hlt. unfold checkRateLimit. rewrite H.
  destruct (Z.gtb_spec now (resetTime r)); [reflexivity | lia].
Qed.

Lemma checkRateLimit_exhausted now ip m r :
  m !! ip = Some r -> now <= resetTime r -> MAX_REQUESTS <= count r ->
  checkRateLimit now ip m =
    ({| allowed := false; remaining := 0; rl_resetTime := Some (resetTime r) |}, m).
Proof.
  intros H Hle Hc. unfold checkRateLimit. rewrite H.
  destruct (Z.gtb_spec now (resetTime r)); [lia |].
  destruct (Z.geb_spec (count r) MAX_REQUESTS); [reflexivity | lia].
Qed.

Lemma checkRateLimit_counted now ip m r :
  m !! ip = Some r -> now <= resetTime r -> count r < MAX_REQUESTS ->
  checkRateLimit now ip m =
    ({| allowed := true; remaining := MAX_REQUESTS - (count r + 1);
        rl_resetTime := None |},
     <[ip := {| count := count r + 1; resetTime := resetTime r |}]> m).
Proof.
  intros H Hle Hc. unfold checkRateLimit. rewrite H.
  destruct (Z.gtb_spec now (resetTime r)); [lia |].
  destruct (Z.geb_spec (count r) MAX_REQUESTS); [lia | reflexivity].
Qed.

(** Calls made while the window of an existing record is open: the k-th of
    them (from 0) is let through exactly when the count it finds, [c + k],
    is still below the quota. *)
Lemma run_within_window ip (times : list Z) :
  forall m c R,
    m !! ip = Some {| count := c; resetTime := R |} ->
    Forall (fun t => t <= R) times ->
    length (checkRateLimit_run ip times m).1 = length times /\
    forall (k : nat) a,
      (checkRateLimit_run ip times m).1 !! k = Some a ->
      (allowed a = true <-> c + Z.of_nat k < MAX_REQUESTS).
Proof.
  induction times as [|t times IH]; intros m c R Hm Hall.
  - split; [reflexivity | intros k a Hk; destruct k; discriminate].
  - apply Forall_cons in Hall as [Ht Hall]. cbn [checkRateLimit_run].
    destruct (Z_lt_le_dec c MAX_REQUESTS) as [Hc | Hc].
    + rewrite (checkRateLimit_counted t ip m _ Hm) by (cbn; lia). cbn [count resetTime].
      specialize (IH (<[ip := {| count := c + 1; resetTime := R |}]> m) (c + 1) R
                    (lookup_insert_eq _ _ _) Hall).
      destruct (checkRateLimit_run ip times _) as [rs m'']. cbn in IH |- *.
      destruct IH as [Hlen IH]. split; [now rewrite Hlen |].
      intros [|k] a Hk; cbn in Hk.
      * inversion Hk; subst; cbn. split; [lia | reflexivity].
      * rewrite (IH k a Hk). lia.
    + rewrite (checkRateLimit_exhausted t ip m _ Hm) by (cbn; lia). cbn [count resetTime].
      specialize (IH m c R Hm Hall).
      destruct (checkRateLimit_run ip times m) as [rs m'']. cbn in IH |- *.
      destruct IH as [Hlen IH]. split; [now rewrite Hlen |].
      intros [|k] a Hk; cbn in Hk.
      * inversion Hk; subst; cbn. split; [discriminate | lia].
      * rewrite (IH k a Hk). lia.
Qed.

(** C5. The contract of [checkRateLimit], with quota 5 and a window of one
    hour: a first call, or a call strictly after the reset time, installs a
    record with count 1 and reset time now + window and is allowed with
    quota - 1 remaining; a call inside the window that finds the count at
    the quota is refused with 0 remaining and the record's reset time, and
    leaves the map as it was; any other call inside the window adds one to
    the count and is allowed with quota - count remaining. Hence, of the
    calls a client makes inside one window, the N-th is allowed exactly when
    N <= 5. *)
Theorem C5_rate_limiter_contract :
  MAX_REQUESTS = 5 /\ RATE_LIMIT_WINDOW = 3600000 /\
  (forall now ip m,
     (m !! ip = None \/ exists r, m !! ip = Some r /\ resetTime r < now) ->
     checkRateLimit now ip m =
       ({| allowed := true; remaining := MAX_REQUESTS - 1; rl_resetTime := None |},
        <[ip := {| count := 1; resetTime := now + RATE_LIMIT_WINDOW |}]> m)) /\
  (forall now ip m r,
     m !! ip = Some r -> now <= resetTime r -> MAX_REQUESTS <= count r ->
     checkRateLimit now ip m =
       ({| allowed := false; remaining := 0; rl_resetTime := Some (resetTime r) |}, m)) /\
  (forall now ip m r,
     m !! ip = Some r -> now <= resetTime r -> count r < MAX_REQUESTS ->
     exists r',
       count r' = count r + 1 /\ resetTime r' = resetTime r /\
       checkRateLimit now ip m =
         ({| allowed := true; remaining := MAX_REQUESTS - count r';
             rl_resetTime := None |}, <[ip := r']> m)) /\
  (forall ip m t0 (later : list Z),
     (m !! ip = None \/ exists r, m !! ip = Some r /\ resetTime r < t0) ->
     Forall (fun t => t <= t0 + RATE_LIMIT_WINDOW) later ->
     let answers := (checkRateLimit_run ip (t0 :: later) m).1 in
     length answers = S (length later) /\
     forall (N : nat) a,
       answers !! N = Some a -> (allowed a = true <-> (S N <= 5)%nat)).
Proof.
  split; [reflexivity |]. split; [reflexivity |].
  assert (Hfirst : forall now ip m,
     (m !! ip = None \/ exists r, m !! ip = Some r /\ resetTime r < now) ->
     checkRateLimit now ip m =
       ({| allowed := true; remaining := MAX_REQUESTS - 1; rl_resetTime := None |},
        <[ip := {| count := 1; resetTime := now + RATE_LIMIT_WINDOW |}]> m)).
  { intros now ip m [H | (r & H & Hlt)].
    - now apply checkRateLimit_fresh.
    - now apply checkRateLimit_expired with r. }
  split; [exact Hfirst |].
  split; [intros; now apply checkRateLimit_exhausted |].
  split.
  - intros now ip m r H Hle Hc.
    exists {| count := count r + 1; resetTime := resetTime r |}.
    split; [reflexivity |]. split; [reflexivity |].
    now apply checkRateLimit_counted.
  - intros ip m t0 later Hstart Hall. cbn zeta. cbn [checkRateLimit_run].
    rewrite (Hfirst t0 ip m Hstart).
    pose proof (run_within_window ip later
                  (<[ip := {| count := 1; resetTime := t0 + RATE_LIMIT_WINDOW |}]> m)
                  1 (t0 + RATE_LIMIT_WINDOW) (lookup_insert_eq _ _ _) Hall) as Hrun.
    destruct (checkRateLimit_run ip later _) as [rs m'']. cbn in Hrun |- *.
    destruct Hrun as [Hlen Hrun]. split; [now rewrite Hlen |].
    intros [|N] a HN; cbn in HN.
    + inversion HN; subst; cbn. split; [lia | reflexivity].
    + rewrite (Hrun N a HN). unfold MAX_REQUESTS. lia.
Qed.

End RateLimiter.

(** ** The rate-limit step of the handler *)

Lemma rateLimit_not_in_scope :
  existsb (String.eqb "rateLimit") scope_at_line_344 = false.
Proof. reflexivity. Qed.

Lemma read_rateLimit_throws in_block s :
  read_rateLimit in_block s = (Thrown (ReferenceError "rateLimit is not defined"), s).
Proof. unfold read_rateLimit. now rewrite rateLimit_not_in_scope. Qed.

Lemma handler_post env req s :
  method req = "POST"%string ->
  wp (fun r s' =>
        r = server_error_response env /\
        fs s' = fs s /\ fetches s' = fetches s /\
        trace s' = trace s ++ [EvRespond 500] /\
        (RATE_LIMIT_PAUSED_var env = Some "true"%string ->
         rateLimitMap s' = rateLimitMap s) /\
        (RATE_LIMIT_PAUSED_var env <> Some "true"%string ->
         rateLimitMap s' =
           (checkRateLimit (clock env) (getClientIP req) (rateLimitMap s)).2))
     never (handler env req) never s.
Proof.
  intros Hm. unfold handler. wp_step. wp_step. apply wp_try_catch.
  unfold handler_try. cbv zeta. rewrite Hm. cbn [String.eqb Ascii.eqb Bool.eqb negb].
  set (cors := match req_headers req !! "origin"%string with Some _ => _ | None => _ end).
  assert (Hcors : forall R T Q s0,
            (forall s1, fs s1 = fs s0 -> fetches s1 = fetches s0 -> trace s1 = trace s0 ->
                        rateLimitMap s1 = rateLimitMap s0 ->
                        uploadedFilePath s1 = uploadedFilePath s0 -> Q tt s1) ->
            wp (A := unit) R T cors Q s0).
  { intros R T Q s0 HQ. subst cors. destruct (req_headers req !! "origin"%string) as [o |].
    - destruct (_ && _)%bool; [apply wp_setHeader | apply wp_ret]; now apply HQ.
    - apply wp_ret. now apply HQ. }
  wp_step. apply Hcors.
  intros s1 Hfs Hfetch Htrace Hmap Hup.
  cbn [fs fetches trace rateLimitMap uploadedFilePath set_tracked] in Hfs, Hfetch, Htrace, Hmap, Hup.
  wp_step. wp_step. wp_step. wp_step. wp_step.
  assert (Hcatch : forall s2,
            fs s2 = fs s -> fetches s2 = fetches s -> trace s2 = trace s ->
            uploadedFilePath s2 = None ->
            (RATE_LIMIT_PAUSED_var env = Some "true"%string ->
             rateLimitMap s2 = rateLimitMap s) ->
            (RATE_LIMIT_PAUSED_var env <> Some "true"%string ->
             rateLimitMap s2 =
               (checkRateLimit (clock env) (getClientIP req) (rateLimitMap s)).2) ->
            wp (fun r s' =>
                  r = server_error_response env /\
                  fs s' = fs s /\ fetches s' = fetches s /\
                  trace s' = trace s ++ [EvRespond 500] /\
                  (RATE_LIMIT_PAUSED_var env = Some "true"%string ->
                   rateLimitMap s' = rateLimitMap s) /\
                  (RATE_LIMIT_PAUSED_var env <> Some "true"%string ->
                   rateLimitMap s' =
                     (checkRateLimit (clock env) (getClientIP req) (rateLimitMap s)).2))
               never
               (handler_catch env (ReferenceError "rateLimit is not defined")) never s2).
  { intros s2 H1 H2 H3 H4 H5 H6. unfold handler_catch.
    wp_step. wp_step. rewrite H4. cbn [truthy]. wp_step. wp_step.
    cbn [error_message].
    change (JsString.includes "rateLimit is not defined" "maxFileSize") with false.
    change (JsString.includes "rateLimit is not defined" "Roboflow") with false.
    cbn iota. wp_step.
    cbn [fs fetches trace rateLimitMap log_event].
    rewrite H1, H2, H3. auto 10. }
  assert (Hread : forall R T in_block (Q : RateLimit -> State -> Prop) s0,
            T (ReferenceError "rateLimit is not defined") s0 ->
            wp R T (read_rateLimit in_block) Q s0).
  { intros R T in_block Q s0 H. unfold wp. now rewrite read_rateLimit_throws. }
  case_bool_decide as Hpaused; cbn [negb].
  - repeat wp_step. apply Hread.
    apply Hcatch; cbn [fs fetches trace rateLimitMap uploadedFilePath add_header];
      try congruence; intros; congruence.
  - wp_step. unfold wp at 1, checkRateLimitM.
    cbn [rateLimitMap add_header]. rewrite Hmap.
    destruct (checkRateLimit (clock env) (getClientIP req) (rateLimitMap s))
      as [rl m'] eqn:Hrl.
    repeat wp_step. apply Hread.
    apply Hcatch;
      cbn [fs fetches trace rateLimitMap uploadedFilePath add_header set_rateLimitMap];
      try congruence.
    intros _. reflexivity.
Qed.

(** C4. With RATE_LIMIT_PAUSED set to "true", a POST request is answered with
    500 "server_error": line 344 reads [rateLimit] outside the block that
    declares it, the ReferenceError lands in the [catch] block, and the form
    is never parsed. No 429 is sent and the rate-limit map is left as it
    was, but the request does not proceed to validation and inference. *)
Theorem C4_paused_post_is_answered_500 :
  forall env req s,
    method req = "POST"%string ->
    RATE_LIMIT_PAUSED_var env = Some "true"%string ->
    exists s',
      handler env req s = (Ret (server_error_response env), s') /\
      rateLimitMap s' = rateLimitMap s /\
      fs s' = fs s /\ fetches s' = fetches s /\
      trace s' = trace s ++ [EvRespond 500].
Proof.
  intros env req s Hm Hp.
  destruct (wp_returns _ _ _ (handler_post env req s Hm))
    as (r & s' & Hrun & -> & Hfs & Hfetch & Htrace & Hmap & _).
  exists s'. auto 10.
Qed.

Lemma C4_paused_post_witness :
  exists s',
    handler (sample_env (Some "true"%string)
               (JsonBody (answer [prediction "calamansi" (92 # 100)]))
               (JsonBody disease_answer)) post_request idle =
      (Ret {| status := 500;
              body := VObj [("error"%string,
                             VStr "An unexpected error occurred during detection");
                            ("type"%string, VStr "server_error");
                            ("details"%string, VUndef)] |}, s') /\
    rateLimitMap s' = ∅ /\ fs s' = ∅ /\ fetches s' = 0%nat /\
    trace s' = [EvRespond 500].
Proof.
  apply (C4_paused_post_is_answered_500
           (sample_env (Some "true"%string)
              (JsonBody (answer [prediction "calamansi" (92 # 100)]))
              (JsonBody disease_answer)) post_request idle); reflexivity.
Defined.

(** Without the flag the same happens, after the call has been counted. *)
Lemma unpaused_post_is_answered_500 env req s :
  method req = "POST"%string ->
  RATE_LIMIT_PAUSED_var env <> Some "true"%string ->
  exists s',
    handler env req s = (Ret (server_error_response env), s') /\
    rateLimitMap s' = (checkRateLimit (clock env) (getClientIP req) (rateLimitMap s)).2 /\
    fs s' = fs s /\ fetches s' = fetches s /\
    trace s' = trace s ++ [EvRespond 500].
Proof.
  intros Hm Hp.
  destruct (wp_returns _ _ _ (handler_post env req s Hm))
    as (r & s' & Hrun & -> & Hfs & Hfetch & Htrace & _ & Hmap).
  exists s'. auto 10.
Qed.

(** ** The handler as a whole *)

Lemma vercel_literal_includes o :
  String.eqb o "https://*.vercel.app" = true -> JsString.includes o ".vercel.app" = true.
Proof. intros H. apply String.eqb_eq in H. now rewrite H. Qed.

Lemma cors_condition env o :
  (truthy (Some o)
   && (existsb (String.eqb o)
         [default "http://localhost:3000"%string
            (orElse (ALLOWED_ORIGIN env) (Some "http://localhost:3000"%string));
          "https://*.vercel.app"%string]
       || JsString.includes o ".vercel.app"))%bool = reflects env o.
Proof.
  unfold reflects. cbn [truthy existsb]. f_equal.
  assert (Hc : default "http://localhost:3000"%string
                 (orElse (ALLOWED_ORIGIN env) (Some "http://localhost:3000"%string)) =
               configured_origin env).
  { unfold configured_origin, orElse, truthy.
    destruct (ALLOWED_ORIGIN env) as [a |]; [| reflexivity].
    destruct (String.eqb a ""); reflexivity. }
  rewrite Hc, orb_false_r.
  destruct (String.eqb o (configured_origin env)); [reflexivity |]. cbn [orb].
  destruct (String.eqb o "https://*.vercel.app") eqn:E; [| reflexivity].
  cbn [orb]. symmetry. now apply vercel_literal_includes.
Qed.

Lemma wp_checkRateLimitM R T env ip (Q : RateLimit -> State -> Prop) s :
  Q (checkRateLimit (clock env) ip (rateLimitMap s)).1
    (set_rateLimitMap (checkRateLimit (clock env) ip (rateLimitMap s)).2 s) ->
  wp R T (checkRateLimitM env ip) Q s.
Proof.
  unfold wp, checkRateLimitM.
  now destruct (checkRateLimit (clock env) ip (rateLimitMap s)).
Qed.

(** What the handler does with a request, in full. *)
Lemma handler_outcome env req s :
  exists s',
    handler env req s = (Ret (answer_by_method env req), s') /\
    fs s' = fs s /\ fetches s' = fetches s /\ uploadedFilePath s' = None /\
    trace s' = trace s ++ [EvRespond (status (answer_by_method env req))] /\
    resHeaders s' = resHeaders s ++ headers_set env req (rateLimitMap s) /\
    rateLimitMap s' = map_after env req (rateLimitMap s).
Proof.
  set (R := fun (r : Response) (s' : State) =>
    r = answer_by_method env req /\
    fs s' = fs s /\ fetches s' = fetches s /\ uploadedFilePath s' = None /\
    trace s' = trace s ++ [EvRespond (status (answer_by_method env req))] /\
    resHeaders s' = resHeaders s ++ headers_set env req (rateLimitMap s) /\
    rateLimitMap s' = map_after env req (rateLimitMap s)).
  assert (Hwp : wp R never (handler env req) never s).
  { unfold handler. wp_step. wp_step. apply wp_try_catch.
    unfold handler_try. cbv zeta.
    set (cors := match req_headers req !! "origin"%string with
                 | Some _ => _ | None => _ end).
    set (origin_headers :=
           match req_headers req !! "origin"%string with
           | Some o => if reflects env o
                       then [("Access-Control-Allow-Origin"%string, VStr o)] else []
           | None => []
           end).
    assert (Hcors : forall R T Q s0,
              (forall s1, fs s1 = fs s0 -> fetches s1 = fetches s0 ->
                          trace s1 = trace s0 -> rateLimitMap s1 = rateLimitMap s0 ->
                          uploadedFilePath s1 = uploadedFilePath s0 ->
                          resHeaders s1 = resHeaders s0 ++ origin_headers -> Q tt s1) ->
              wp (A := unit) R T cors Q s0).
    { intros R0 T0 Q s0 HQ. subst cors origin_headers.
      destruct (req_headers req !! "origin"%string) as [o |].
      - rewrite cors_condition.
        destruct (reflects env o); [apply wp_setHeader | apply wp_ret];
          apply HQ; try reflexivity. cbn. now rewrite app_nil_r.
      - apply wp_ret. apply HQ; try reflexivity. now rewrite app_nil_r. }
    wp_step. apply Hcors.
    intros s1 Hfs Hfetch Htrace Hmap Hup Hhead.
    cbn [fs fetches trace rateLimitMap uploadedFilePath resHeaders set_tracked]
      in Hfs, Hfetch, Htrace, Hmap, Hup, Hhead.
    wp_step. wp_step. wp_step. wp_step.
    unfold R, answer_by_method, headers_set, map_after. fold origin_headers.
    destruct (String.eqb (method req) "OPTIONS") eqn:Eopt.
    { apply String.eqb_eq in Eopt. rewrite Eopt. cbn [String.eqb Ascii.eqb Bool.eqb andb].
      wp_step.
      cbn [fs fetches trace rateLimitMap uploadedFilePath resHeaders log_event add_header
           status].
      rewrite Hfs, Hfetch, Htrace, Hmap, Hup, Hhead, app_nil_r, <- !app_assoc.
      auto 10. }
    destruct (String.eqb (method req) "POST") eqn:Epost; cbn [negb andb].
    2:{ wp_step.
        cbn [fs fetches trace rateLimitMap uploadedFilePath resHeaders log_event add_header
             status].
        rewrite Hfs, Hfetch, Htrace, Hmap, Hup, Hhead, app_nil_r, <- !app_assoc.
        auto 10. }
    assert (Hread : forall R T in_block (Q : RateLimit -> State -> Prop) s0,
              T (ReferenceError "rateLimit is not defined") s0 ->
              wp R T (read_rateLimit in_block) Q s0).
    { intros R0 T0 in_block Q s0 H. unfold wp. now rewrite read_rateLimit_throws. }
    assert (Hcatch : forall s2 (P : Response -> State -> Prop),
              uploadedFilePath s2 = None ->
              P (server_error_response env) (log_event (EvRespond 500) s2) ->
              wp P never
                (handler_catch env (ReferenceError "rateLimit is not defined")) never s2).
    { intros s2 P H4 HP. unfold handler_catch.
      wp_step. wp_step. rewrite H4. cbn [truthy]. wp_step. wp_step.
      cbn [error_message].
      change (JsString.includes "rateLimit is not defined" "maxFileSize") with false.
      change (JsString.includes "rateLimit is not defined" "Roboflow") with false.
      cbn iota. wp_step. exact HP. }
    case_bool_decide as Hpaused; cbn [negb].
    - repeat wp_step. apply Hread. apply Hcatch.
      + cbn [uploadedFilePath add_header]. exact Hup.
      + cbn [fs fetches trace rateLimitMap uploadedFilePath resHeaders log_event add_header
             status server_error_response].
        rewrite Hfs, Hfetch, Htrace, Hmap, Hup, Hhead, app_nil_r, <- !app_assoc.
        auto 10.
    - repeat wp_step. apply wp_checkRateLimitM.
      cbn [rateLimitMap add_header]. rewrite Hmap.
      repeat wp_step. apply Hread. apply Hcatch.
      + cbn [uploadedFilePath add_header set_rateLimitMap]. exact Hup.
      + cbn [fs fetches trace rateLimitMap uploadedFilePath resHeaders log_event add_header
             set_rateLimitMap status server_error_response fst snd].
        rewrite Hfs, Hfetch, Htrace, Hup, Hhead, <- !app_assoc.
        auto 10. }
  apply wp_returns in Hwp. destruct Hwp as (r & s' & Hrun & -> & Hrest).
  exists s'. split; [exact Hrun | exact Hrest].
Qed.


(** ** The renderers *)

Lemma drawBox_drawable measureText sx sy pred index :
  drawable pred ->
  exists ds,
    Renderer.drawBox measureText sx sy pred index = (ds, None) /\
    length (Renderer.strokes ds) = 1%nat /\
    stroke_colours ds = [nth (index mod 6) Renderer.boxColors ""%string].
Proof.
  intros [(bb & Hbb) (c & Hc)]. unfold Renderer.drawBox.
  assert (Hm : Renderer.member "boundingBox" pred = inr (VObj bb)).
  { destruct pred; try discriminate Hbb. cbn in *. now rewrite Hbb. }
  rewrite Hm. cbn [Renderer.member get]. rewrite Hc.
  eexists. split; [reflexivity |]. split; reflexivity.
Qed.

Lemma drawBox_without_box measureText sx sy pred index :
  get "boundingBox" pred = VUndef \/ get "boundingBox" pred = VNull ->
  exists e, Renderer.drawBox measureText sx sy pred index = ([], Some e).
Proof.
  intros H. unfold Renderer.drawBox.
  destruct pred as [| | b | q | t | ms | l | o];
    try (eexists; reflexivity).
  cbn [Renderer.member]. destruct H as [-> | ->]; eexists; reflexivity.
Qed.

Lemma drawBoxes_stop measureText sx sy good bad rest index :
  Forall drawable good ->
  get "boundingBox" bad = VUndef \/ get "boundingBox" bad = VNull ->
  exists ds e,
    Renderer.drawBoxes measureText sx sy good index = (ds, None) /\
    Renderer.drawBoxes measureText sx sy (good ++ bad :: rest) index = (ds, Some e) /\
    length (Renderer.strokes ds) = length good /\
    stroke_colours ds =
      map (fun i => nth (i mod 6) Renderer.boxColors ""%string) (seq index (length good)).
Proof.
  intros Hgood Hbad. revert index.
  induction Hgood as [| pred good Hpred _ IH]; intros index.
  - destruct (drawBox_without_box measureText sx sy bad index Hbad) as (e & He).
    exists [], e. cbn [app Renderer.drawBoxes]. rewrite He. auto.
  - destruct (drawBox_drawable measureText sx sy pred index Hpred) as (ds & Hds & Hn & Hc).
    destruct (IH (S index)) as (ds' & e & Hgood' & Hall & Hn' & Hc').
    exists (ds ++ ds'), e. cbn [app Renderer.drawBoxes]. rewrite Hds, Hgood', Hall.
    split; [reflexivity |]. split; [reflexivity |]. split.
    + unfold Renderer.strokes in *. rewrite flat_map_app, length_app, Hn, Hn'. reflexivity.
    + unfold stroke_colours in *. rewrite flat_map_app, Hc, Hc'. reflexivity.
Qed.

(** ** What the handler answers to a POST *)

Lemma answer_to_post env req :
  method req = "POST"%string -> answer_by_method env req = server_error_response env.
Proof. intros Hm. unfold answer_by_method. now rewrite Hm. Qed.

Lemma handler_post_run env req s :
  method req = "POST"%string ->
  exists s',
    handler env req s = (Ret (server_error_response env), s') /\
    fs s' = fs s /\ fetches s' = fetches s /\ uploadedFilePath s' = None /\
    trace s' = trace s ++ [EvRespond 500].
Proof.
  intros Hm.
  destruct (handler_outcome env req s) as (s' & Hrun & Hfs & Hfetch & Hup & Htrace & _).
  rewrite (answer_to_post env req Hm) in Hrun, Htrace.
  exists s'. auto.
Qed.

Lemma fetched_respond t c : fetched (t ++ [EvRespond c]) = fetched t.
Proof. unfold fetched. rewrite omap_app. cbn. apply app_nil_r. Qed.

Lemma logged_respond t c : logged (t ++ [EvRespond c]) = logged t.
Proof. unfold logged. rewrite omap_app. cbn. apply app_nil_r. Qed.

(** ** Removing the upload *)

Lemma unlinked_idem env o s : unlinked env o (unlinked env o s) = unlinked env o s.
Proof.
  unfold unlinked. destruct o as [p |]; [| reflexivity].
  destruct (truthy (Some p) && bool_decide (is_Some (fs s !! p)))%bool eqn:Hc;
    [| now rewrite Hc].
  destruct (unlinkError env p) eqn:Hu.
  - now rewrite Hc.
  - cbn [fs log_event set_fs]. rewrite lookup_delete_eq.
    rewrite bool_decide_eq_false_2, andb_false_r; [reflexivity | now intros [? ?]].
Qed.


Lemma unlinked_other env o q s : o <> Some q -> fs (unlinked env o s) !! q = fs s !! q.
Proof.
  intros Hq. unfold unlinked. destruct o as [p |]; [| reflexivity].
  destruct (_ && _)%bool; [| reflexivity].
  destruct (unlinkError env p); [reflexivity |]. cbn.
  apply lookup_delete_ne. congruence.
Qed.

(** C1. The checks of lines 413-453 on the verification model's answer are
    never applied. Whatever that model would answer, a POST request is
    answered 500 with type "server_error" and not with a 400 validation
    error; the response reports neither a detected label nor a confidence,
    and the verification model has not been called. *)
Theorem C1_post_is_answered_before_verification :
  forall env req s,
    method req = "POST"%string ->
    exists r s',
      handler env req s = (Ret r, s') /\
      status r = 500 /\
      get "type" (body r) = VStr "server_error" /\
      get "detected" (body r) = VUndef /\
      get "confidence" (body r) = VUndef /\
      fetched (trace s') = fetched (trace s).
Proof.
  intros env req s Hm.
  destruct (handler_post_run env req s Hm) as (s' & Hrun & _ & _ & _ & Htrace).
  exists (server_error_response env), s'. split; [exact Hrun |].
  rewrite Htrace, fetched_respond. repeat split; reflexivity.
Qed.

(** The label "Calamansi Leaf" at confidence 0.50, which the specification
    lets pass, and "tomato" at 0.95, which it refuses with a 400. *)
Lemma C1_post_is_answered_before_verification_witness :
  (exists r s',
     handler (sample_env None leaf_answer (JsonBody disease_answer)) post_request idle =
       (Ret r, s') /\
     status r = 500 /\ get "detected" (body r) = VUndef /\ fetched (trace s') = []) /\
  (exists r s',
     handler (sample_env None tomato_answer (JsonBody disease_answer)) post_request idle =
       (Ret r, s') /\
     status r = 500 /\ get "detected" (body r) = VUndef /\ fetched (trace s') = []).
Proof.
  split.
  - destruct (C1_post_is_answered_before_verification
                (sample_env None leaf_answer (JsonBody disease_answer)) post_request idle)
      as (r & s' & Hrun & Hst & _ & Hdet & _ & Hf); [reflexivity |].
    exists r, s'. auto.
  - destruct (C1_post_is_answered_before_verification
                (sample_env None tomato_answer (JsonBody disease_answer)) post_request idle)
      as (r & s' & Hrun & Hst & _ & Hdet & _ & Hf); [reflexivity |].
    exists r, s'. auto.
Defined.


(** The upload of the sample form, put in the temp directory by hand, is
    removed by the first cleanup and the second changes nothing; when the
    system refuses to unlink it, neither call raises. *)
Example cleanup_twice :
  (exists s1,
     deleteImageFile (sample_env None tomato_answer tomato_answer)
       (Some (filepath upload)) (with_upload idle) = (Val tt, s1) /\
     fs s1 = ∅ /\ trace s1 = [EvUnlink (filepath upload)] /\
     deleteImageFile (sample_env None tomato_answer tomato_answer)
       (Some (filepath upload)) s1 = (Val tt, s1)) /\
  deleteImageFile
    (failing_unlink (filepath upload) (sample_env None tomato_answer tomato_answer))
    (Some (filepath upload)) (with_upload idle) = (Val tt, with_upload idle).
Proof.
  split.
  - eexists. split; [apply deleteImageFile_run |].
    split; [vm_compute; reflexivity |]. split; [reflexivity |].
    rewrite deleteImageFile_run. now rewrite unlinked_idem.
  - rewrite deleteImageFile_run. reflexivity.
Qed.

(** C3. Whatever the verification model would answer, and so also when it
    would answer without predictions, a POST request ends in a 500 whose
    type is "server_error" with the text of the [catch] block; the
    "model_error" answer of lines 432-438 is not what the handler sends. *)
Theorem C3_post_is_not_answered_model_error :
  forall env req s,
    method req = "POST"%string ->
    exists r s',
      handler env req s = (Ret r, s') /\
      status r = 500 /\
      get "type" (body r) = VStr "server_error" /\
      get "type" (body r) <> VStr "model_error" /\
      get "error" (body r) = VStr "An unexpected error occurred during detection" /\
      get "error" (body r) <> VStr "Model 1 returned no predictions".
Proof.
  intros env req s Hm.
  destruct (handler_post_run env req s Hm) as (s' & Hrun & _).
  exists (server_error_response env), s'. split; [exact Hrun |].
  split; [reflexivity |]. split; [reflexivity |]. split; [discriminate |].
  split; [reflexivity | discriminate].
Qed.

Lemma C3_post_is_not_answered_model_error_witness :
  exists r s',
    handler (sample_env None empty_answer (JsonBody disease_answer)) post_request idle =
      (Ret r, s') /\
    status r = 500 /\ get "type" (body r) = VStr "server_error".
Proof.
  destruct (C3_post_is_not_answered_model_error
              (sample_env None empty_answer (JsonBody disease_answer)) post_request idle)
    as (r & s' & Hrun & Hst & Hty & _); [reflexivity |].
  exists r, s'. auto.
Defined.

(** C6. No POST request proceeds to the disease classification, whatever
    shape the verification model's answer would have: the run ends in a 500
    having made no outbound call at all, and records nothing but that
    response (no parsing of the form, no reading of the file). *)
Theorem C6_post_never_proceeds_to_classification :
  forall env req s,
    method req = "POST"%string ->
    exists r s',
      handler env req s = (Ret r, s') /\
      status r = 500 /\
      fetches s' = fetches s /\
      trace s' = trace s ++ [EvRespond 500].
Proof.
  intros env req s Hm.
  destruct (handler_post_run env req s Hm) as (s' & Hrun & _ & Hfetch & _ & Htrace).
  exists (server_error_response env), s'. split; [exact Hrun |].
  split; [reflexivity |]. split; [exact Hfetch | exact Htrace].
Qed.

Lemma C6_post_never_proceeds_witness :
  exists r s',
    handler (sample_env None top_only_answer (JsonBody disease_answer)) post_request idle =
      (Ret r, s') /\
    status r = 500 /\ fetches s' = 0%nat /\ trace s' = [EvRespond 500].
Proof.
  destruct (C6_post_never_proceeds_to_classification
              (sample_env None top_only_answer (JsonBody disease_answer)) post_request idle)
    as (r & s' & Hrun & Hst & Hfetch & Htrace); [reflexivity |].
  exists r, s'. auto.
Defined.

(** C7. A POST request is never answered 400 and never with type
    "validation_error", whatever the verification model would say of the
    image: the answer is the 500 of the [catch] block. No model endpoint is
    called, and the temp directory is as it was, no upload having been
    written to it. *)
Theorem C7_post_is_never_answered_400 :
  forall env req s,
    method req = "POST"%string ->
    exists r s',
      handler env req s = (Ret r, s') /\
      r = server_error_response env /\
      status r <> 400 /\
      get "type" (body r) <> VStr "validation_error" /\
      fetched (trace s') = fetched (trace s) /\
      fs s' = fs s.
Proof.
  intros env req s Hm.
  destruct (handler_post_run env req s Hm) as (s' & Hrun & Hfs & _ & _ & Htrace).
  exists (server_error_response env), s'. split; [exact Hrun |].
  split; [reflexivity |]. split; [discriminate |]. split; [discriminate |].
  split; [| exact Hfs]. rewrite Htrace. apply fetched_respond.
Qed.

Lemma C7_post_is_never_answered_400_witness :
  exists r s',
    handler (sample_env None tomato_answer (JsonBody disease_answer)) post_request idle =
      (Ret r, s') /\
    status r = 500 /\ get "type" (body r) = VStr "server_error" /\
    fetched (trace s') = [] /\ fs s' = ∅.
Proof.
  destruct (C7_post_is_never_answered_400
              (sample_env None tomato_answer (JsonBody disease_answer)) post_request idle)
    as (r & s' & Hrun & -> & _ & _ & Hf & Hfs); [reflexivity |].
  eexists _, s'. split; [exact Hrun |]. auto.
Defined.

(** C8. No POST request is answered with an assembled result: the response
    is not a 200, its body has the members error, type and details only, so
    neither a primary result ([model2]) nor [allPredictions], and no entry
    is passed to the audit log. *)
Theorem C8_post_is_never_answered_with_a_result :
  forall env req s,
    method req = "POST"%string ->
    exists r s',
      handler env req s = (Ret r, s') /\
      status r <> 200 /\
      keys (body r) = ["error"; "type"; "details"]%string /\
      get "model2" (body r) = VUndef /\
      get "allPredictions" (body r) = VUndef /\
      logged (trace s') = logged (trace s).
Proof.
  intros env req s Hm.
  destruct (handler_post_run env req s Hm) as (s' & Hrun & _ & _ & _ & Htrace).
  exists (server_error_response env), s'. split; [exact Hrun |].
  split; [discriminate |]. rewrite Htrace, logged_respond.
  repeat split; reflexivity.
Qed.

Lemma C8_post_is_never_answered_with_a_result_witness :
  exists r s',
    handler (sample_env None calamansi_answer (JsonBody disease_answer)) post_request idle =
      (Ret r, s') /\
    status r = 500 /\ get "model2" (body r) = VUndef /\
    get "allPredictions" (body r) = VUndef.
Proof.
  destruct (C8_post_is_never_answered_with_a_result
              (sample_env None calamansi_answer (JsonBody disease_answer)) post_request idle)
    as (r & s' & Hrun & _ & _ & Hm2 & Hall & _); [reflexivity |].
  exists r, s'. split; [exact Hrun |]. split; [| auto].
  destruct (handler_post_run
              (sample_env None calamansi_answer (JsonBody disease_answer)) post_request idle)
    as (s0 & Hrun0 & _); [reflexivity |].
  rewrite Hrun in Hrun0. now inversion Hrun0.
Defined.



(** The two-entry list of the specification's scenario on the renderer. *)
Example renderer_on_entries_without_geometry :
  let canvas :=
    Renderer.drawImageWithBoundingBoxes (fun _ => 120%Q) 1280 1280
      [sample_entry "black spot" 81; sample_entry "healthy calamansi" 10]
      (VNum 640) (VNum 640) in
  Renderer.drawn canvas = [Renderer.DrawImage] /\
  Renderer.raised canvas =
    Some (TypeError "Cannot read properties of undefined (reading 'x')").
Proof. split; reflexivity. Qed.

(** ** The renderer *)

Lemma drawBox_geometry measureText sx sy pred g c index :
  has_geometry pred g ->
  get "class" pred = VStr c ->
  exists ds,
    Renderer.drawBox measureText (Some sx) (Some sy) pred index = (ds, None) /\
    Renderer.strokes ds = [rectangle sx sy g].
Proof.
  intros (bb & Hbb & Hx & Hy & Hw & Hh) Hc. unfold Renderer.drawBox.
  assert (Hm : Renderer.member "boundingBox" pred = inr (VObj bb)).
  { destruct pred; try discriminate Hbb. cbn in *. now rewrite Hbb. }
  rewrite Hm. cbn [Renderer.member get]. rewrite Hx, Hy, Hw, Hh, Hc.
  eexists. split; [reflexivity |]. reflexivity.
Qed.

Lemma drawBoxes_geometry measureText sx sy preds gs :
  Forall2 (fun pred g => has_geometry pred g /\ exists c, get "class" pred = VStr c)
    preds gs ->
  forall index,
  exists ds,
    Renderer.drawBoxes measureText (Some sx) (Some sy) preds index = (ds, None) /\
    Renderer.strokes ds = map (rectangle sx sy) gs.
Proof.
  induction 1 as [| pred g preds gs [Hg (c & Hc)] _ IH]; intros index.
  - exists []. split; reflexivity.
  - destruct (drawBox_geometry measureText sx sy pred g c index Hg Hc) as (ds & Hds & Hs).
    destruct (IH (S index)) as (ds' & Hds' & Hs').
    exists (ds ++ ds'). cbn [Renderer.drawBoxes]. rewrite Hds, Hds'.
    split; [reflexivity |].
    unfold Renderer.strokes in *. rewrite flat_map_app, Hs, Hs'. reflexivity.
Qed.

(** C9. For predictions that carry center-coordinate geometry, the renderer
    strokes, in order, one rectangle per prediction, with top-left corner
    ((centerX - width/2) * scaleX, (centerY - height/2) * scaleY) and size
    (width * scaleX, height * scaleY), where each scale is the displayed
    dimension over the model-reported one. With 640 x 640 reported, 1280 x
    1280 displayed, center (320, 320) and size (100, 100), the rectangle has
    top-left (540, 540) and size (200, 200). *)
Theorem C9_renderer_geometry :
  forall measureText img_width img_height originalWidth originalHeight preds gs,
    ~ (originalWidth == 0)%Q ->
    ~ (originalHeight == 0)%Q ->
    Forall2 (fun pred g => has_geometry pred g /\ exists c, get "class" pred = VStr c)
      preds gs ->
    let canvas :=
      Renderer.drawImageWithBoundingBoxes measureText img_width img_height preds
        (VNum originalWidth) (VNum originalHeight) in
    Renderer.raised canvas = None /\
    Renderer.strokes (Renderer.drawn canvas) =
      map (rectangle (img_width / originalWidth) (img_height / originalHeight)) gs /\
    match rectangle (1280 / 640) (1280 / 640)
            {| centerX := 320; centerY := 320; box_width := 100; box_height := 100 |} with
    | (Some x, Some y, Some w, Some h) =>
        (x == 540)%Q /\ (y == 540)%Q /\ (w == 200)%Q /\ (h == 200)%Q
    | _ => False
    end.
Proof.
  intros measureText iw ih ow oh preds gs Hw Hh Hall. cbv zeta.
  unfold Renderer.drawImageWithBoundingBoxes, Renderer.ndiv. cbn [Renderer.toNum].
  assert (Ew : Qeq_bool ow 0 = false).
  { destruct (Qeq_bool ow 0) eqn:E; [| reflexivity].
    apply Qeq_bool_iff in E. contradiction. }
  assert (Eh : Qeq_bool oh 0 = false).
  { destruct (Qeq_bool oh 0) eqn:E; [| reflexivity].
    apply Qeq_bool_iff in E. contradiction. }
  rewrite Ew, Eh.
  destruct (drawBoxes_geometry measureText (iw / ow)%Q (ih / oh)%Q preds gs Hall 0%nat)
    as (ds & Hds & Hs).
  rewrite Hds. cbn [Renderer.raised Renderer.drawn].
  split; [reflexivity |]. split; [exact Hs |].
  cbn. repeat split; reflexivity.
Qed.

Lemma C9_renderer_geometry_witness :
  let canvas :=
    Renderer.drawImageWithBoundingBoxes (fun _ => 120%Q) 1280 1280 [sample_box]
      (VNum 640) (VNum 640) in
  Renderer.raised canvas = None /\
  Renderer.strokes (Renderer.drawn canvas) =
    [rectangle (1280 / 640) (1280 / 640)
       {| centerX := 320; centerY := 320; box_width := 100; box_height := 100 |}].
Proof.
  destruct (C9_renderer_geometry (fun _ => 120%Q) 1280 1280 640 640 [sample_box]
              [{| centerX := 320; centerY := 320; box_width := 100; box_height := 100 |}])
    as (H1 & H2 & _).
  - intros H. discriminate H.
  - intros H. discriminate H.
  - constructor; [| constructor]. split.
    + eexists. repeat split; reflexivity.
    + eexists. reflexivity.
  - split; [exact H1 | exact H2].
Defined.

(** ** Witnesses and scenarios *)

Lemma C5_rate_limiter_witness :
  checkRateLimit 1000 "203.0.113.7" ∅ =
    ({| allowed := true; remaining := 4; rl_resetTime := None |},
     {[ "203.0.113.7"%string := {| count := 1; resetTime := 3601000 |} ]}) /\
  checkRateLimit 2000 "203.0.113.7"
    {[ "203.0.113.7"%string := {| count := 5; resetTime := 3601000 |} ]} =
    ({| allowed := false; remaining := 0; rl_resetTime := Some 3601000 |},
     {[ "203.0.113.7"%string := {| count := 5; resetTime := 3601000 |} ]}) /\
  (let answers :=
     (checkRateLimit_run "203.0.113.7" [1000; 2000; 3000; 4000; 5000; 6000; 7000] ∅).1 in
   length answers = 7%nat /\
   forall (N : nat) a, answers !! N = Some a -> (allowed a = true <-> (S N <= 5)%nat)).
Proof.
  destruct C5_rate_limiter_contract as (_ & _ & Hfirst & Hfull & _ & Hrun).
  split; [| split].
  - rewrite (Hfirst 1000 "203.0.113.7"%string ∅); [reflexivity | left; reflexivity].
  - apply (Hfull 2000 "203.0.113.7"%string _ {| count := 5; resetTime := 3601000 |}).
    + reflexivity.
    + cbn. lia.
    + cbn. unfold MAX_REQUESTS. lia.
  - apply (Hrun "203.0.113.7"%string ∅ 1000 [2000; 3000; 4000; 5000; 6000; 7000]).
    + left. reflexivity.
    + unfold RATE_LIMIT_WINDOW. repeat constructor; lia.
Defined.


(** * Further properties *)

(** ** The client key *)

Lemma trimStart_first s c : first_char (JsString.trimStart s) = Some c -> JsString.is_space c = false.
Proof.
  induction s as [| d r IH]; cbn [JsString.trimStart]; [discriminate |].
  destruct (JsString.is_space d) eqn:E; [exact IH |].
  cbn. intros H. inversion H; subst. exact E.
Qed.

Lemma trimEnd_first s c : first_char (JsString.trimEnd s) = Some c -> first_char s = Some c.
Proof.
  destruct s as [| d r]; cbn [JsString.trimEnd]; [discriminate |].
  destruct (JsString.trimEnd r); [destruct (JsString.is_space d) |]; cbn; congruence.
Qed.

Lemma trimEnd_last s c : last_char (JsString.trimEnd s) = Some c -> JsString.is_space c = false.
Proof.
  induction s as [| d r IH]; cbn [JsString.trimEnd]; [discriminate |].
  destruct (JsString.trimEnd r) as [| e r'] eqn:E.
  - destruct (JsString.is_space d) eqn:Ed; cbn; [discriminate |].
    intros H. inversion H; subst. exact Ed.
  - cbn [last_char]. exact IH.
Qed.

Lemma trimStart_chars c s :
  contains_char c (JsString.trimStart s) = true -> contains_char c s = true.
Proof.
  induction s as [| d r IH]; cbn [JsString.trimStart]; [exact id |].
  destruct (JsString.is_space d); [| exact id].
  intros H. cbn. rewrite (IH H). apply orb_true_r.
Qed.

Lemma trimEnd_chars c s :
  contains_char c (JsString.trimEnd s) = true -> contains_char c s = true.
Proof.
  induction s as [| d r IH]; cbn [JsString.trimEnd]; [exact id |].
  destruct (JsString.trimEnd r) as [| e r'] eqn:E.
  - destruct (JsString.is_space d); cbn; [discriminate |].
    rewrite orb_false_r. intros ->. reflexivity.
  - cbn [contains_char]. intros H. apply orb_true_iff in H as [H | H].
    + rewrite H. reflexivity.
    + rewrite (IH H). apply orb_true_r.
Qed.

Lemma beforeComma_no_comma s : contains_char "," (JsString.beforeComma s) = false.
Proof.
  induction s as [| d r IH]; [reflexivity |]. cbn [JsString.beforeComma].
  destruct (Ascii.eqb d ",") eqn:E; [reflexivity |].
  cbn [contains_char]. rewrite IH, orb_false_r.
  rewrite Ascii.eqb_sym. exact E.
Qed.

Lemma truthy_some s : truthy (Some s) = true <-> s <> ""%string.
Proof.
  cbn. destruct (String.eqb_spec s "") as [-> | Hne]; cbn; split.
  - discriminate.
  - intros H. now contradiction H.
  - intros _. exact Hne.
  - reflexivity.
Qed.

(** X1. The client key is never the empty text. When the [x-forwarded-for]
    header has a first entry that is not blank, the key is that entry with
    the whitespace at both ends removed: it holds no comma and neither
    starts nor ends with a whitespace character. Without such an entry the
    key is [x-real-ip] if that is not empty, then the socket's address, then
    "unknown". *)
Theorem X1_client_key :
  (forall req, getClientIP req <> ""%string) /\
  (forall req h,
     req_headers req !! "x-forwarded-for"%string = Some h ->
     JsString.trim (JsString.beforeComma h) <> ""%string ->
     getClientIP req = JsString.trim (JsString.beforeComma h) /\
     contains_char "," (getClientIP req) = false /\
     (forall c, first_char (getClientIP req) = Some c -> JsString.is_space c = false) /\
     (forall c, last_char (getClientIP req) = Some c -> JsString.is_space c = false)) /\
  (forall req,
     (req_headers req !! "x-forwarded-for"%string = None \/
      exists h, req_headers req !! "x-forwarded-for"%string = Some h /\
                JsString.trim (JsString.beforeComma h) = ""%string) ->
     getClientIP req =
       match req_headers req !! "x-real-ip"%string, remoteAddress req with
       | Some a, _ => if String.eqb a "" then
                        match remoteAddress req with
                        | Some b => if String.eqb b "" then "unknown"%string else b
                        | None => "unknown"%string
                        end
                      else a
       | None, Some b => if String.eqb b "" then "unknown"%string else b
       | None, None => "unknown"%string
       end).
Proof.
  split; [| split].
  - intros req. unfold getClientIP.
    destruct (orElse _ _) as [a |]; [| discriminate].
    destruct (truthy (Some a)) eqn:E; [| discriminate].
    now apply truthy_some.
  - intros req h Hh Hne.
    assert (Hkey : getClientIP req = JsString.trim (JsString.beforeComma h)).
    { unfold getClientIP. rewrite Hh. unfold orElse at 1.
      rewrite (proj2 (truthy_some _) Hne). now rewrite (proj2 (truthy_some _) Hne). }
    rewrite Hkey. split; [reflexivity |]. unfold JsString.trim. split; [| split].
    + destruct (contains_char "," _) eqn:E; [| reflexivity].
      apply trimEnd_chars, trimStart_chars in E.
      now rewrite beforeComma_no_comma in E.
    + intros c Hc. apply trimEnd_first in Hc. now apply trimStart_first in Hc.
    + intros c Hc. now apply trimEnd_last in Hc.
  - intros req Hfw. unfold getClientIP.
    assert (Hfalsy : truthy match req_headers req !! "x-forwarded-for"%string with
                            | Some h => Some (JsString.trim (JsString.beforeComma h))
                            | None => None
                            end = false).
    { destruct Hfw as [-> | (h & -> & ->)]; reflexivity. }
    unfold orElse at 1. rewrite Hfalsy. unfold orElse, truthy.
    destruct (req_headers req !! "x-real-ip"%string) as [a |];
      destruct (remoteAddress req) as [b |]; cbn;
      repeat match goal with
             | |- context [String.eqb ?x ""] => destruct (String.eqb x "") eqn:?
             end; cbn; try reflexivity; try congruence;
      repeat match goal with H : String.eqb _ _ = _ |- _ => rewrite H end;
      reflexivity.
Qed.

Lemma X1_client_key_witness :
  getClientIP post_request = "203.0.113.7"%string /\
  contains_char "," (getClientIP post_request) = false.
Proof.
  destruct X1_client_key as (_ & H & _).
  destruct (H post_request "203.0.113.7, 10.0.0.1"%string) as (H1 & H2 & _).
  - reflexivity.
  - discriminate.
  - split; [exact H1 | exact H2].
Defined.

(** ** More on the rate limiter *)

Lemma checkRateLimit_other now ip m ip' :
  ip' <> ip -> (checkRateLimit now ip m).2 !! ip' = m !! ip'.
Proof.
  intros Hne. unfold checkRateLimit.
  destruct (m !! ip) as [r |]; [destruct (now >? resetTime r);
    [| destruct (count r >=? MAX_REQUESTS)] |]; cbn [snd];
    try reflexivity; now apply lookup_insert_ne.
Qed.

Lemma checkRateLimit_recorded now ip m : is_Some ((checkRateLimit now ip m).2 !! ip).
Proof.
  unfold checkRateLimit.
  destruct (m !! ip) as [r |] eqn:E; [destruct (now >? resetTime r);
    [| destruct (count r >=? MAX_REQUESTS)] |]; cbn [snd];
    try (rewrite lookup_insert_eq; eauto). rewrite E. eauto.
Qed.

Lemma serve_cons now ip calls m :
  serve ((now, ip) :: calls) m =
    ((checkRateLimit now ip m).1 :: (serve calls (checkRateLimit now ip m).2).1,
     (serve calls (checkRateLimit now ip m).2).2).
Proof.
  cbn [serve]. destruct (checkRateLimit now ip m) as [a m'].
  cbn [fst snd]. now destruct (serve calls m').
Qed.

(** X2. A call of [checkRateLimit] for one client never changes another
    client's record, and the map never loses a record: after any sequence of
    calls, every client that had a record still has one, and every client
    that called has one. *)
Theorem X2_rate_limiter_isolation :
  (forall now ip m ip',
     ip' <> ip -> (checkRateLimit now ip m).2 !! ip' = m !! ip') /\
  (forall calls m ip',
     (forall now, (now, ip') ∉ calls) ->
     (serve calls m).2 !! ip' = m !! ip') /\
  (forall calls m ip',
     is_Some (m !! ip') \/ (exists now, (now, ip') ∈ calls) ->
     is_Some ((serve calls m).2 !! ip')).
Proof.
  split; [exact checkRateLimit_other |]. split.
  - induction calls as [| [now ip] calls IH]; intros m ip' Hnot; [reflexivity |].
    rewrite serve_cons. cbn [snd]. rewrite IH.
    + apply checkRateLimit_other. intros ->. apply (Hnot now). apply list_elem_of_here.
    + intros t Ht. apply (Hnot t). now apply list_elem_of_further.
  - induction calls as [| [now ip] calls IH]; intros m ip' H.
    + destruct H as [H | (t & Ht)]; [exact H |]. now apply elem_of_nil in Ht.
    + rewrite serve_cons. cbn [snd]. apply IH.
      destruct (decide (ip' = ip)) as [-> | Hne].
      * left. apply checkRateLimit_recorded.
      * destruct H as [H | (t & Ht)].
        -- left. now rewrite checkRateLimit_other.
        -- apply elem_of_cons in Ht as [Ht | Ht]; [congruence |]. right. eauto.
Qed.

Lemma X2_rate_limiter_isolation_witness :
  (serve [(1000, "10.0.0.1"%string); (1001, "10.0.0.1"%string)]
     {[ "10.0.0.2"%string := {| count := 3; resetTime := 5000 |} ]}).2
    !! "10.0.0.2"%string = Some {| count := 3; resetTime := 5000 |}.
Proof.
  destruct X2_rate_limiter_isolation as (_ & H & _).
  rewrite (H [(1000, "10.0.0.1"%string); (1001, "10.0.0.1"%string)] _ "10.0.0.2"%string).
  - reflexivity.
  - intros now Hin. repeat (apply elem_of_cons in Hin as [Hin | Hin]; [congruence |]).
    now apply elem_of_nil in Hin.
Defined.

Lemma checkRateLimit_in_range now ip m :
  counts_in_range m ->
  counts_in_range (checkRateLimit now ip m).2 /\
  0 <= remaining (checkRateLimit now ip m).1 <= MAX_REQUESTS - 1 /\
  (allowed (checkRateLimit now ip m).1 = true ->
   exists r, (checkRateLimit now ip m).2 !! ip = Some r /\
             remaining (checkRateLimit now ip m).1 = MAX_REQUESTS - count r).
Proof.
  intros Hm. unfold checkRateLimit, counts_in_range in *.
  destruct (m !! ip) as [r |] eqn:E.
  - destruct (Z.gtb_spec now (resetTime r)) as [Hgt | Hle]; cbn [fst snd remaining allowed count resetTime].
    + split; [| split; [unfold MAX_REQUESTS; lia |]].
      * intros ip' r'. rewrite lookup_insert. case_decide.
        -- intros Heq. inversion Heq; subst. cbn. unfold MAX_REQUESTS. lia.
        -- apply Hm.
      * intros _. eexists. rewrite lookup_insert_eq. split; [reflexivity | reflexivity].
    + destruct (Z.geb_spec (count r) MAX_REQUESTS) as [Hfull | Hroom];
        cbn [fst snd remaining allowed count resetTime].
      * split; [exact Hm |]. split; [unfold MAX_REQUESTS; lia | discriminate].
      * pose proof (Hm ip r E) as Hr. split; [| split; [lia |]].
        -- intros ip' r'. rewrite lookup_insert. case_decide.
           ++ intros Heq. inversion Heq; subst. cbn. lia.
           ++ apply Hm.
        -- intros _. eexists. rewrite lookup_insert_eq. split; reflexivity.
  - cbn [fst snd remaining allowed count resetTime]. split; [| split; [unfold MAX_REQUESTS; lia |]].
    + intros ip' r'. rewrite lookup_insert. case_decide.
      * intros Heq. inversion Heq; subst. cbn. unfold MAX_REQUESTS. lia.
      * apply Hm.
    + intros _. eexists. rewrite lookup_insert_eq. split; reflexivity.
Qed.

(** X3. Starting from the empty map, after any sequence of calls by any
    clients at any clock readings every record's count lies between 1 and
    the quota, and every answer's [remaining] lies between 0 and quota - 1:
    the count never runs past the quota and [remaining] is never negative. *)
Theorem X3_rate_limiter_counts_stay_in_range :
  forall calls : list (Z * string),
    counts_in_range (serve calls ∅).2 /\
    Forall (fun a => 0 <= remaining a <= MAX_REQUESTS - 1) (serve calls ∅).1.
Proof.
  assert (H : forall calls m, counts_in_range m ->
            counts_in_range (serve calls m).2 /\
            Forall (fun a => 0 <= remaining a <= MAX_REQUESTS - 1) (serve calls m).1).
  { induction calls as [| [now ip] calls IH]; intros m Hm.
    - split; [exact Hm | constructor].
    - rewrite serve_cons. cbn [fst snd].
      destruct (checkRateLimit_in_range now ip m Hm) as (Hm' & Hrem & _).
      destruct (IH _ Hm') as [H1 H2]. split; [exact H1 | now constructor]. }
  intros calls. apply H. intros ip r Hr. now rewrite lookup_empty in Hr.
Qed.

(** X4. [checkRateLimit] refuses only a client whose record is at the quota
    inside its window; the refusal reports that record's reset time, which
    is not earlier than the clock reading of the call, and leaves the map
    untouched. An allowed answer carries no reset time. *)
Theorem X4_refusal_reports_a_reset_time_not_in_the_past :
  forall now ip m,
    (allowed (checkRateLimit now ip m).1 = false ->
     exists r,
       m !! ip = Some r /\ MAX_REQUESTS <= count r /\
       rl_resetTime (checkRateLimit now ip m).1 = Some (resetTime r) /\
       now <= resetTime r /\
       (checkRateLimit now ip m).2 = m) /\
    (allowed (checkRateLimit now ip m).1 = true ->
     rl_resetTime (checkRateLimit now ip m).1 = None).
Proof.
  intros now ip m. unfold checkRateLimit.
  destruct (m !! ip) as [r |] eqn:E.
  - destruct (Z.gtb_spec now (resetTime r)) as [Hgt | Hle]; cbn [fst snd allowed rl_resetTime].
    + split; [discriminate | reflexivity].
    + destruct (Z.geb_spec (count r) MAX_REQUESTS) as [Hfull | Hroom];
        cbn [fst snd allowed rl_resetTime].
      * split; [| discriminate]. intros _. exists r. auto 10.
      * split; [discriminate | reflexivity].
  - cbn [fst snd allowed rl_resetTime]. split; [discriminate | reflexivity].
Qed.

Lemma window_is_fixed now ip m r :
  m !! ip = Some r -> now <= resetTime r ->
  exists r', (checkRateLimit now ip m).2 !! ip = Some r' /\
             resetTime r' = resetTime r /\ count r <= count r' <= count r + 1.
Proof.
  intros E Hle. unfold checkRateLimit. rewrite E.
  destruct (Z.gtb_spec now (resetTime r)) as [Hgt | _]; [lia |].
  destruct (count r >=? MAX_REQUESTS); cbn [snd].
  - exists r. split; [exact E | split; [reflexivity | lia]].
  - eexists. rewrite lookup_insert_eq. split; [reflexivity |]. cbn. split; [reflexivity | lia].
Qed.

(** X5. The window is fixed, not sliding: inside a record's window a call
    never moves its reset time. Hence a client whose first call is at [t0]
    can make four more calls at the last millisecond of that window and five
    at the next millisecond, and all ten are allowed: nine calls within two
    consecutive milliseconds. *)
Theorem X5_window_is_fixed :
  (forall now ip m r,
     m !! ip = Some r -> now <= resetTime r ->
     exists r', (checkRateLimit now ip m).2 !! ip = Some r' /\
                resetTime r' = resetTime r /\ count r <= count r' <= count r + 1) /\
  (forall ip m t0,
     (m !! ip = None \/ exists r, m !! ip = Some r /\ resetTime r < t0) ->
     let last := t0 + RATE_LIMIT_WINDOW in
     map allowed
       (checkRateLimit_run ip
          [t0; last; last; last; last; last + 1; last + 1; last + 1; last + 1; last + 1]
          m).1 = repeat true 10).
Proof.
  split; [exact window_is_fixed |].
  intros ip m t0 Hstart last.
  assert (Hfirst : forall now m0,
            (m0 !! ip = None \/ exists r, m0 !! ip = Some r /\ resetTime r < now) ->
            checkRateLimit now ip m0 =
              ({| allowed := true; remaining := MAX_REQUESTS - 1; rl_resetTime := None |},
               <[ip := {| count := 1; resetTime := now + RATE_LIMIT_WINDOW |}]> m0)).
  { intros now m0 [H | (r & H & Hlt)];
      [now apply checkRateLimit_fresh | now apply checkRateLimit_expired with r]. }
  assert (Hnext : forall now m0 c R,
            m0 !! ip = Some {| count := c; resetTime := R |} -> now <= R ->
            c < MAX_REQUESTS ->
            checkRateLimit now ip m0 =
              ({| allowed := true; remaining := MAX_REQUESTS - (c + 1);
                  rl_resetTime := None |},
               <[ip := {| count := c + 1; resetTime := R |}]> m0)).
  { intros now m0 c R H Hle Hc.
    now rewrite (checkRateLimit_counted now ip m0 _ H). }
  cbn [checkRateLimit_run].
  rewrite (Hfirst t0 m Hstart).
  rewrite (Hnext last _ 1 last (lookup_insert_eq _ _ _)) by (unfold MAX_REQUESTS; lia).
  rewrite (Hnext last _ (1 + 1) last (lookup_insert_eq _ _ _)) by (unfold MAX_REQUESTS; lia).
  rewrite (Hnext last _ (1 + 1 + 1) last (lookup_insert_eq _ _ _))
    by (unfold MAX_REQUESTS; lia).
  rewrite (Hnext last _ (1 + 1 + 1 + 1) last (lookup_insert_eq _ _ _))
    by (unfold MAX_REQUESTS; lia).
  rewrite (Hfirst (last + 1)).
  2:{ right. eexists. rewrite lookup_insert_eq. split; [reflexivity |]. cbn. lia. }
  rewrite (Hnext (last + 1) _ 1 (last + 1 + RATE_LIMIT_WINDOW) (lookup_insert_eq _ _ _))
    by (unfold MAX_REQUESTS, RATE_LIMIT_WINDOW; lia).
  rewrite (Hnext (last + 1) _ (1 + 1) (last + 1 + RATE_LIMIT_WINDOW)
             (lookup_insert_eq _ _ _))
    by (unfold MAX_REQUESTS, RATE_LIMIT_WINDOW; lia).
  rewrite (Hnext (last + 1) _ (1 + 1 + 1) (last + 1 + RATE_LIMIT_WINDOW)
             (lookup_insert_eq _ _ _))
    by (unfold MAX_REQUESTS, RATE_LIMIT_WINDOW; lia).
  rewrite (Hnext (last + 1) _ (1 + 1 + 1 + 1) (last + 1 + RATE_LIMIT_WINDOW)
             (lookup_insert_eq _ _ _))
    by (unfold MAX_REQUESTS, RATE_LIMIT_WINDOW; lia).
  reflexivity.
Qed.

Lemma X4_refusal_witness :
  rl_resetTime
    (checkRateLimit 2000 "203.0.113.7"
       {[ "203.0.113.7"%string := {| count := 5; resetTime := 3601000 |} ]}).1 =
    Some 3601000.
Proof.
  destruct (X4_refusal_reports_a_reset_time_not_in_the_past 2000 "203.0.113.7"
              {[ "203.0.113.7"%string := {| count := 5; resetTime := 3601000 |} ]})
    as [H _].
  destruct (H eq_refl) as (r & Hr & _ & Hreset & _).
  rewrite Hreset. rewrite lookup_singleton_eq in Hr. inversion Hr. reflexivity.
Defined.

Lemma X5_window_is_fixed_witness :
  map allowed
    (checkRateLimit_run "203.0.113.7"
       [0; 3600000; 3600000; 3600000; 3600000;
        3600001; 3600001; 3600001; 3600001; 3600001] ∅).1 = repeat true 10.
Proof.
  destruct X5_window_is_fixed as [_ H].
  apply (H "203.0.113.7"%string ∅ 0). left. reflexivity.
Defined.
(** ** The handler as a whole: further properties *)

(** X6. A request whose method is not POST never reaches the rate limiter:
    OPTIONS is answered 200 with no body, any other method 405 with type
    "method_error"; the rate-limit map, the temp directory and the count of
    outbound calls are as before, and nothing but the response is recorded. *)
Theorem X6_other_methods_are_answered_at_once :
  forall env req s,
    method req <> "POST"%string ->
    exists r s',
      handler env req s = (Ret r, s') /\
      (method req = "OPTIONS"%string -> r = {| status := 200; body := VUndef |}) /\
      (method req <> "OPTIONS"%string ->
       r = {| status := 405;
              body := VObj [("error"%string, VStr "Method not allowed");
                            ("type"%string, VStr "method_error")] |}) /\
      rateLimitMap s' = rateLimitMap s /\
      fs s' = fs s /\ fetches s' = fetches s /\
      trace s' = trace s ++ [EvRespond (status r)].
Proof.
  intros env req s Hm.
  destruct (handler_outcome env req s) as (s' & Hrun & Hfs & Hfetch & _ & Htrace & _ & Hmap).
  exists (answer_by_method env req), s'. split; [exact Hrun |].
  assert (Epost : String.eqb (method req) "POST" = false).
  { destruct (String.eqb_spec (method req) "POST"); [contradiction | reflexivity]. }
  unfold map_after in Hmap. unfold answer_by_method in *. rewrite Epost in *.
  cbn [andb] in Hmap.
  destruct (String.eqb_spec (method req) "OPTIONS") as [Eo | Eo].
  - split; [reflexivity |]. split; [contradiction |]. auto.
  - split; [contradiction |]. split; [reflexivity |]. auto.
Qed.

Lemma X6_other_methods_witness :
  exists r s',
    handler (sample_env None (JsonBody disease_answer) (JsonBody disease_answer))
      {| method := "GET"; req_headers := ∅; remoteAddress := None |} idle = (Ret r, s') /\
    status r = 405 /\ rateLimitMap s' = ∅ /\ trace s' = [EvRespond 405].
Proof.
  destruct (X6_other_methods_are_answered_at_once
              (sample_env None (JsonBody disease_answer) (JsonBody disease_answer))
              {| method := "GET"; req_headers := ∅; remoteAddress := None |} idle)
    as (r & s' & Hrun & _ & H405 & Hmap & _ & _ & Htrace).
  - discriminate.
  - exists r, s'. rewrite (H405 ltac:(discriminate)) in *. auto.
Defined.

(** X7. Whatever the request, the environment and the state, the handler
    returns a response whose status is 200, 405 or 500; a 200 has no body.
    It never answers 429, never parses a form, never touches the temp
    directory and never calls a model: every POST ends at the read of
    [rateLimit] at line 344. *)
Theorem X7_handler_never_gets_past_the_rate_limit_step :
  forall env req s,
    exists r s',
      handler env req s = (Ret r, s') /\
      (status r = 200 /\ body r = VUndef \/
       status r = 405 /\ get "type" (body r) = VStr "method_error" \/
       status r = 500 /\ get "type" (body r) = VStr "server_error") /\
      fs s' = fs s /\ fetches s' = fetches s /\ uploadedFilePath s' = None /\
      trace s' = trace s ++ [EvRespond (status r)].
Proof.
  intros env req s.
  destruct (handler_outcome env req s)
    as (s' & Hrun & Hfs & Hfetch & Hup & Htrace & _ & _).
  exists (answer_by_method env req), s'. split; [exact Hrun |].
  split; [| auto].
  unfold answer_by_method.
  destruct (String.eqb (method req) "OPTIONS"); [left; split; reflexivity |].
  destruct (String.eqb (method req) "POST"); right; [right | left]; split; reflexivity.
Qed.

Lemma reflects_iff env o :
  reflects env o = true <->
  o <> ""%string /\ (o = configured_origin env \/ JsString.includes o ".vercel.app" = true).
Proof.
  unfold reflects. rewrite andb_true_iff, orb_true_iff, negb_true_iff.
  rewrite String.eqb_eq, String.eqb_neq. reflexivity.
Qed.

(** X8. For every request, the handler first sets the CORS headers:
    [Access-Control-Allow-Origin] echoes the request's origin exactly when
    that origin is not empty and either equals the configured origin
    (ALLOWED_ORIGIN, or http://localhost:3000 when that is unset or empty) or
    contains ".vercel.app" anywhere in it; the Allow-Methods and
    Allow-Headers headers are always set. A request without an origin gets
    no Allow-Origin header. *)
Theorem X8_cors_headers :
  forall env req s,
    exists s' rest,
      (handler env req s).2 = s' /\
      resHeaders s' =
        resHeaders s
        ++ match req_headers req !! "origin"%string with
           | Some o => if reflects env o
                       then [("Access-Control-Allow-Origin"%string, VStr o)] else []
           | None => []
           end
        ++ [("Access-Control-Allow-Methods"%string, VStr "POST, OPTIONS");
            ("Access-Control-Allow-Headers"%string, VStr "Content-Type")]
        ++ rest /\
      Forall (fun h => h.1 <> "Access-Control-Allow-Origin"%string) rest /\
      forall o,
        reflects env o = true <->
        o <> ""%string /\
        (o = configured_origin env \/ JsString.includes o ".vercel.app" = true).
Proof.
  intros env req s.
  destruct (handler_outcome env req s) as (s' & Hrun & _ & _ & _ & _ & Hhead & _).
  exists s'. eexists. rewrite Hrun. split; [reflexivity |].
  split; [rewrite Hhead; unfold headers_set; reflexivity |].
  split; [| apply reflects_iff].
  destruct (_ && _)%bool; repeat constructor; discriminate.
Qed.

(** An origin of another site that merely contains ".vercel.app" is echoed. *)
Example cors_echoes_a_foreign_origin :
  exists rest,
    resHeaders
      (handler (sample_env None (JsonBody disease_answer) (JsonBody disease_answer))
         {| method := "OPTIONS";
            req_headers := {[ "origin"%string :=
                              "https://cali.vercel.app.attacker.example"%string ]};
            remoteAddress := None |} idle).2 =
      ("Access-Control-Allow-Origin"%string,
       VStr "https://cali.vercel.app.attacker.example") :: rest.
Proof. eexists. vm_compute. reflexivity. Qed.

(** X9. A POST made without the pause flag is counted against the client's
    quota and gets the [X-RateLimit-Limit] and [X-RateLimit-Remaining]
    headers of that count, although the request is then answered 500; no
    [X-RateLimit-Reset] header is ever set. *)
Theorem X9_failing_post_still_consumes_quota :
  forall env req s,
    method req = "POST"%string ->
    RATE_LIMIT_PAUSED_var env <> Some "true"%string ->
    exists s' before,
      handler env req s = (Ret (server_error_response env), s') /\
      rateLimitMap s' =
        (checkRateLimit (clock env) (getClientIP req) (rateLimitMap s)).2 /\
      resHeaders s' =
        before
        ++ [("X-RateLimit-Limit"%string, numZ 5);
            ("X-RateLimit-Remaining"%string,
             numZ (remaining
                     (checkRateLimit (clock env) (getClientIP req) (rateLimitMap s)).1))] /\
      Forall (fun h => h.1 <> "X-RateLimit-Reset"%string)
        (drop (length (resHeaders s)) (resHeaders s')).
Proof.
  intros env req s Hm Hp.
  destruct (handler_outcome env req s) as (s' & Hrun & _ & _ & _ & _ & Hhead & Hmap).
  unfold answer_by_method, map_after, headers_set in *. rewrite Hm in *.
  cbn [String.eqb Ascii.eqb Bool.eqb andb] in *.
  rewrite bool_decide_eq_false_2 in * by exact Hp. cbn [negb] in *.
  exists s'. eexists. split; [exact Hrun |]. split; [exact Hmap |].
  split; [rewrite Hhead, !app_assoc; reflexivity |].
  rewrite Hhead, drop_app_length.
  destruct (req_headers req !! "origin"%string) as [o |];
    [destruct (reflects env o) |]; repeat constructor; discriminate.
Qed.

Lemma X9_failing_post_witness :
  exists s',
    handler (sample_env None (JsonBody disease_answer) (JsonBody disease_answer))
      post_request idle =
      (Ret (server_error_response
              (sample_env None (JsonBody disease_answer) (JsonBody disease_answer))), s') /\
    rateLimitMap s' !! "203.0.113.7"%string =
      Some {| count := 1; resetTime := 1700003600000 |}.
Proof.
  destruct (X9_failing_post_still_consumes_quota
              (sample_env None (JsonBody disease_answer) (JsonBody disease_answer))
              post_request idle)
    as (s' & before & Hrun & Hmap & _).
  - reflexivity.
  - discriminate.
  - exists s'. split; [exact Hrun |]. rewrite Hmap. reflexivity.
Defined.

(** ** The database helper *)


Lemma getPool_cases env d :
  (Database.getPool env d = (Database.pool d, d) /\
   (Database.pool d = None -> truthy (Database.DATABASE_URL env) = false)) \/
  (exists u,
     Database.pool d = None /\ Database.DATABASE_URL env = Some u /\ u <> ""%string /\
     Database.getPool env d =
       (Some u, {| Database.pool := Some u;
                   Database.pools_created := S (Database.pools_created d);
                   Database.statements := Database.statements d |})).
Proof.
  unfold Database.getPool.
  destruct (Database.pool d) as [u |] eqn:Hpool.
  - left. rewrite bool_decide_eq_true_2 by eauto. cbn. split; [reflexivity | discriminate].
  - rewrite bool_decide_eq_false_2 by (now intros [? ?]). cbn [negb andb].
    destruct (Database.DATABASE_URL env) as [u |] eqn:Hurl; cbn [truthy].
    + destruct (String.eqb_spec u "") as [-> | Hne]; cbn [negb].
      * left. auto.
      * right. exists u. auto.
    + left. auto.
Qed.

Lemma logDetection_try_statements env data d :
  exists r d',
    Database.logDetection_try env data d = (r, d') /\
    Database.pool d' = Database.pool d /\
    Database.pools_created d' = Database.pools_created d /\
    (Database.statements d' = Database.statements d \/
     exists row,
       Database.insert_values env data = inr row /\
       Database.statements d' = Database.statements d ++ [Database.InsertDetection row]).
Proof.
  unfold Database.logDetection_try.
  destruct (Database.insert_values env data) as [e | row] eqn:Hrow.
  - eexists _, _. split; [reflexivity |]. auto.
  - unfold Database.query.
    destruct (Database.queryOutcome env (Database.InsertDetection row)) as [e | [| r0 rows]].
    + eexists _, _. split; [reflexivity |]. cbn. eauto 6.
    + eexists _, _. split; [reflexivity |]. cbn. eauto 6.
    + destruct (Renderer.member "id" r0);
        (eexists _, _; split; [reflexivity |]; cbn; eauto 6).
Qed.



(** The invariant of the module's state. *)
Lemma call_keeps_pool env c d :
  (Database.pools_created d <= 1)%nat ->
  (Database.pools_created d = 0%nat <-> Database.pool d = None) ->
  (Database.pool d = None -> Database.statements d = []) ->
  exists v d',
    Database.call env c d = (inr v, d') /\
    (Database.pools_created d' <= 1)%nat /\
    (Database.pools_created d' = 0%nat <-> Database.pool d' = None) /\
    (Database.pool d' = None -> Database.statements d' = []) /\
    (forall u, Database.pool d = Some u -> Database.pool d' = Some u).
Proof.
  intros Hle Hiff Hnone.
  assert (Hstep : exists db d1,
            Database.getPool env d = (db, d1) /\ db = Database.pool d1 /\
            (Database.pools_created d1 <= 1)%nat /\
            (Database.pools_created d1 = 0%nat <-> Database.pool d1 = None) /\
            (Database.pool d1 = None -> d1 = d) /\
            (forall u, Database.pool d = Some u -> Database.pool d1 = Some u)).
  { destruct (getPool_cases env d) as [[Hget _] | (u & Hpool & Hurl & Hu & Hget)];
      rewrite Hget.
    - eexists _, _. split; [reflexivity |]. auto 7.
    - eexists _, _. split; [reflexivity |]. cbn.
      assert (Database.pools_created d = 0%nat) by now apply Hiff.
      split; [reflexivity |]. split; [lia |]. split; [split; [lia | discriminate] |].
      split; [discriminate |]. intros u0 H0. congruence. }
  destruct Hstep as (db & d1 & Hget & Hdb & Hle1 & Hiff1 & Hsame & Hkept).
  destruct c as [data | days]; cbn [Database.call].
  - unfold Database.logDetection. rewrite Hget.
    destruct db as [u |].
    + destruct (logDetection_try_statements env data d1)
        as (r & d' & Hrun & Hp & Hc & Hst).
      rewrite Hrun.
      exists (match r with inl _ => VUndef | inr id => id end), d'.
      split; [now destruct r |].
      rewrite Hp, Hc. split; [exact Hle1 |]. split; [exact Hiff1 |].
      split; [rewrite <- Hdb; discriminate | exact Hkept].
    + exists VUndef, d1. split; [reflexivity |]. symmetry in Hdb.
      rewrite (Hsame Hdb) in *.
      split; [exact Hle |]. split; [exact Hiff |]. split; [exact Hnone |].
      intros u0 H0. congruence.
  - unfold Database.getStats. rewrite Hget.
    destruct db as [u |].
    + unfold Database.query.
      destruct (Database.queryOutcome env _) as [e | rows];
        (eexists _, _; split; [reflexivity |]; cbn;
         split; [exact Hle1 |]; split; [exact Hiff1 |];
         split; [rewrite <- Hdb; discriminate | exact Hkept]).
    + exists VNull, d1. split; [reflexivity |]. symmetry in Hdb.
      rewrite (Hsame Hdb) in *.
      split; [exact Hle |]. split; [exact Hiff |]. split; [exact Hnone |].
      intros u0 H0. congruence.
Qed.

Lemma calls_keep_pool l d :
  (Database.pools_created d <= 1)%nat ->
  (Database.pools_created d = 0%nat <-> Database.pool d = None) ->
  (Database.pool d = None -> Database.statements d = []) ->
  (Database.pools_created (Database.calls l d) <= 1)%nat /\
  (Database.pools_created (Database.calls l d) = 0%nat <->
   Database.pool (Database.calls l d) = None) /\
  (Database.pool (Database.calls l d) = None -> Database.statements (Database.calls l d) = []) /\
  (forall u, Database.pool d = Some u -> Database.pool (Database.calls l d) = Some u).
Proof.
  revert d. induction l as [| [env c] l IH]; intros d Hle Hiff Hnone; cbn [Database.calls].
  - auto.
  - destruct (call_keeps_pool env c d Hle Hiff Hnone)
      as (v & d' & Hcall & Hle' & Hiff' & Hnone' & Hkept).
    rewrite Hcall. cbn [snd].
    destruct (IH d' Hle' Hiff' Hnone') as (A & B & C & D).
    split; [exact A |]. split; [exact B |]. split; [exact C |].
    intros u Hu. apply D, Hkept, Hu.
Qed.

(** X23. Over any sequence of calls of [logDetection] and [getStats] in a
    freshly loaded module, whatever the environment of each call: at most
    one pool is ever created; once there is a pool, every later call keeps
    it; nothing is sent before there is one; and neither function ever
    rejects ([getStats] answers null instead). *)
Theorem X23_one_pool_and_no_rejection :
  forall l,
    (Database.pools_created (Database.calls l Database.fresh) <= 1)%nat /\
    (Database.pool (Database.calls l Database.fresh) = None ->
     Database.statements (Database.calls l Database.fresh) = []) /\
    forall env c,
      exists v d',
        Database.call env c (Database.calls l Database.fresh) = (inr v, d') /\
        (forall u, Database.pool (Database.calls l Database.fresh) = Some u ->
                   Database.pool d' = Some u) /\
        (forall days, c = Database.CallGetStats days ->
                      v = VNull \/ exists rows, v = VArr rows).
Proof.
  intros l.
  destruct (calls_keep_pool l Database.fresh) as (A & B & C & _);
    [cbn; lia | now split | reflexivity |].
  split; [exact A |]. split; [exact C |].
  intros env c.
  destruct (call_keeps_pool env c _ A B C) as (v & d' & Hcall & _ & _ & _ & Hkept).
  exists v, d'. split; [exact Hcall |]. split; [exact Hkept |].
  intros days ->. cbn [Database.call] in Hcall. unfold Database.getStats in Hcall.
  destruct (Database.getPool env _) as [[u |] d1].
  - unfold Database.query in Hcall.
    destruct (Database.queryOutcome env _) as [e | rows]; inversion Hcall; eauto.
  - inversion Hcall. auto.
Qed.

(** ** The renderers: further properties *)

(** X25. When the multi-box renderer meets a prediction without a
    [boundingBox], the callback throws and [forEach] ends: the canvas holds
    what was drawn for the predictions before it and nothing for it or for
    any prediction after it, however well-formed. The rectangles drawn until
    then are one per prediction, in the six palette colours in turn. *)
Theorem X25_renderer_stops_at_a_prediction_without_box :
  forall measureText img_width img_height good bad rest originalWidth originalHeight,
    Forall drawable good ->
    get "boundingBox" bad = VUndef \/ get "boundingBox" bad = VNull ->
    let canvas :=
      Renderer.drawImageWithBoundingBoxes measureText img_width img_height
        (good ++ bad :: rest) originalWidth originalHeight in
    Renderer.raised canvas <> None /\
    Renderer.drawn canvas =
      Renderer.drawn
        (Renderer.drawImageWithBoundingBoxes measureText img_width img_height
           good originalWidth originalHeight) /\
    length (Renderer.strokes (Renderer.drawn canvas)) = length good /\
    stroke_colours (Renderer.drawn canvas) =
      map (fun i => nth (i mod 6) Renderer.boxColors ""%string) (seq 0 (length good)).
Proof.
  intros measureText iw ih good bad rest ow oh Hgood Hbad. cbv zeta.
  unfold Renderer.drawImageWithBoundingBoxes.
  destruct (drawBoxes_stop measureText
              (Renderer.ndiv (Some iw) (Renderer.toNum ow))
              (Renderer.ndiv (Some ih) (Renderer.toNum oh)) good bad rest 0 Hgood Hbad)
    as (ds & e & H1 & H2 & Hn & Hc).
  rewrite H1, H2. cbn [Renderer.raised Renderer.drawn].
  split; [discriminate |]. split; [reflexivity |]. split; [exact Hn | exact Hc].
Qed.

Lemma X25_renderer_stops_witness :
  let canvas :=
    Renderer.drawImageWithBoundingBoxes (fun _ => 120%Q) 1280 1280
      ([sample_box] ++ VObj [("class"%string, VStr "scab"); ("confidence"%string, numZ 40)]
                    :: [sample_box])
      (VNum 640) (VNum 640) in
  Renderer.raised canvas <> None /\
  length (Renderer.strokes (Renderer.drawn canvas)) = 1%nat /\
  stroke_colours (Renderer.drawn canvas) = ["#00FF00"%string].
Proof.
  destruct (X25_renderer_stops_at_a_prediction_without_box (fun _ => 120%Q) 1280 1280
              [sample_box]
              (VObj [("class"%string, VStr "scab"); ("confidence"%string, numZ 40)])
              [sample_box] (VNum 640) (VNum 640))
    as (H1 & _ & H2 & H3).
  - constructor; [| constructor]. split; eexists; reflexivity.
  - left. reflexivity.
  - split; [exact H1 |]. split; [exact H2 | exact H3].
Defined.

(** X26. The single-box renderer of the earlier page draws, for a bounding
    box, what the multi-box renderer draws for the one prediction that
    carries it: the same image, the same green rectangle, the same label
    box and text at the same places; only the fill of the label box differs
    (opacity 0.7 instead of 0.8). Both throw on a bounding box that is
    undefined or null, having drawn the image only. *)
Theorem X26_single_box_renderer_agrees :
  forall measureText img_width img_height boundingBox confidence c
         originalWidth originalHeight,
    let single :=
      SingleBox.drawImageWithBoundingBox measureText img_width img_height
        boundingBox confidence (ResultsPage.info_name c) originalWidth originalHeight in
    let multi :=
      Renderer.drawImageWithBoundingBoxes measureText img_width img_height
        [VObj [("class"%string, VStr c); ("confidence"%string, confidence);
               ("boundingBox"%string, boundingBox)]]
        originalWidth originalHeight in
    map unfilled (Renderer.drawn single) = map unfilled (Renderer.drawn multi) /\
    Renderer.strokes (Renderer.drawn single) = Renderer.strokes (Renderer.drawn multi) /\
    Renderer.raised single = Renderer.raised multi /\
    (Renderer.raised single = None <-> boundingBox <> VUndef /\ boundingBox <> VNull).
Proof.
  intros measureText iw ih bb conf c ow oh. cbv zeta.
  unfold SingleBox.drawImageWithBoundingBox, Renderer.drawImageWithBoundingBoxes,
    Renderer.drawBoxes, Renderer.drawBox, ResultsPage.info_name.
  cbn [Renderer.member get assoc String.eqb Ascii.eqb Bool.eqb].
  destruct bb as [| | b | q | t | ms | l | o]; cbn;
    (split; [reflexivity |]); (split; [reflexivity |]); (split; [reflexivity |]);
    split; try discriminate; try tauto; try (intros _; split; discriminate).
Qed.
(** ** The handler and its helpers: further properties *)

(** X11. Outside development mode no response of the handler discloses the
    message of an exception: the [details] member is undefined in every
    response. In development mode the 500 that answers a POST carries the
    message of the ReferenceError of line 344; the answers to the other
    methods never have the member. *)
Theorem X11_error_details_only_in_development :
  forall env req s,
    exists r s',
      handler env req s = (Ret r, s') /\
      (NODE_ENV env <> Some "development"%string -> get "details" (body r) = VUndef) /\
      (method req <> "POST"%string -> get "details" (body r) = VUndef) /\
      (NODE_ENV env = Some "development"%string -> method req = "POST"%string ->
       get "details" (body r) = VStr "rateLimit is not defined").
Proof.
  intros env req s.
  destruct (handler_outcome env req s) as (s' & Hrun & _).
  exists (answer_by_method env req), s'. split; [exact Hrun |].
  unfold answer_by_method.
  destruct (String.eqb_spec (method req) "OPTIONS") as [Eo | Eo].
  { split; [reflexivity |]. split; [reflexivity |]. intros _ Hp. congruence. }
  destruct (String.eqb_spec (method req) "POST") as [Ep | Ep].
  - cbn [body server_error_response errorBody get assoc app String.eqb Ascii.eqb Bool.eqb].
    case_bool_decide as Hdev; split; try split; intros; try reflexivity; contradiction.
  - split; [reflexivity |]. split; [reflexivity |]. intros _ Hp. contradiction.
Qed.

Example details_in_development :
  exists s',
    handler (development (sample_env None calamansi_answer (JsonBody disease_answer)))
      post_request idle =
      (Ret {| status := 500;
              body := VObj [("error"%string,
                             VStr "An unexpected error occurred during detection");
                            ("type"%string, VStr "server_error");
                            ("details"%string, VStr "rateLimit is not defined")] |}, s').
Proof.
  destruct (handler_post_run
              (development (sample_env None calamansi_answer (JsonBody disease_answer)))
              post_request idle) as (s' & Hrun & _); [reflexivity |].
  exists s'. exact Hrun.
Qed.

(** X12. The handler never passes an entry to [logDetection]: whatever the
    request, the environment and the state, the entries recorded after the
    run are those recorded before it. *)
Theorem X12_nothing_is_logged :
  forall env req s,
    exists r s',
      handler env req s = (Ret r, s') /\
      logged (trace s') = logged (trace s) /\
      forall entry, EvLogDetection entry ∈ trace s' -> EvLogDetection entry ∈ trace s.
Proof.
  intros env req s.
  destruct (handler_outcome env req s) as (s' & Hrun & _ & _ & _ & Htrace & _).
  exists (answer_by_method env req), s'. split; [exact Hrun |].
  rewrite Htrace. split; [apply logged_respond |].
  intros entry Hin. apply elem_of_app in Hin. destruct Hin as [Hin | Hin]; [exact Hin |].
  apply list_elem_of_singleton in Hin. discriminate.
Qed.

(** X14. [deleteImageFile] never throws and touches no path but the one it
    is given. Either it leaves the temp directory as it was (the path is
    undefined or empty, the file is not there, or [fs.unlinkSync] fails), or
    it removes exactly the file at that path. It changes nothing else: the
    rate-limit map, the tracked path, the headers and the call count stay. *)
Theorem X14_deleteImageFile_touches_one_path :
  forall env filePath s,
    exists s1,
      deleteImageFile env filePath s = (Val tt, s1) /\
      (forall q, filePath <> Some q -> fs s1 !! q = fs s !! q) /\
      (s1 = s \/
       exists p,
         filePath = Some p /\ p <> ""%string /\ is_Some (fs s !! p) /\
         unlinkError env p = None /\
         fs s1 = delete p (fs s) /\ trace s1 = trace s ++ [EvUnlink p]) /\
      rateLimitMap s1 = rateLimitMap s /\ uploadedFilePath s1 = uploadedFilePath s /\
      resHeaders s1 = resHeaders s /\ fetches s1 = fetches s.
Proof.
  intros env filePath s. exists (unlinked env filePath s).
  split; [apply deleteImageFile_run |].
  split; [intros q Hq; now apply unlinked_other |].
  unfold unlinked. destruct filePath as [p |]; [| auto 10].
  destruct (truthy (Some p)) eqn:Ht; cbn [andb]; [| auto 10].
  case_bool_decide as Hthere; [| auto 10].
  destruct (unlinkError env p) eqn:Hu; [auto 10 |].
  split; [| auto]. right. exists p.
  split; [reflexivity |]. split; [| auto].
  intros ->. discriminate Ht.
Qed.

(** A second file of the same form stays where the parser wrote it. *)
Example cleanup_leaves_other_files :
  exists s1,
    deleteImageFile (sample_env None calamansi_answer calamansi_answer)
      (Some "/tmp/upload_1"%string)
      (set_fs {[ "/tmp/upload_1"%string := "a"%string;
                 "/tmp/upload_2"%string := "b"%string ]} idle) = (Val tt, s1) /\
    fs s1 !! "/tmp/upload_1"%string = None /\
    fs s1 !! "/tmp/upload_2"%string = Some "b"%string.
Proof.
  eexists. split; [apply deleteImageFile_run |]. split; reflexivity.
Qed.

(** X18. [callRoboflowAPI] makes exactly one request, to the given URL with
    the key in its query string, and touches no file. A JSON answer is
    returned as it is; an answer with an HTTP error status throws an Error
    'Roboflow API error (status): text', whose message therefore contains
    'Roboflow'; a rejection of [fetch] or of the reading of the body
    propagates with its own message. *)
Theorem X18_callRoboflowAPI_contract :
  forall env base64Image apiUrl apiKey s,
    let run := callRoboflowAPI env base64Image apiUrl apiKey s in
    trace run.2 = trace s ++ [EvFetch (apiUrl +:+ "?api_key=" +:+ apiKey)] /\
    fetches run.2 = S (fetches s) /\
    fs run.2 = fs s /\
    match fetchOutcome env (fetches s) with
    | JsonBody r => run.1 = Val r
    | HttpFailure st text =>
        exists m,
          run.1 = Thrown (Error m) /\
          m = ("Roboflow API error (" +:+ JsString.ofZ st +:+ "): " +:+ text)%string /\
          JsString.includes m "Roboflow" = true
    | FetchRejected m => run.1 = Thrown (Error m)
    end.
Proof.
  intros env base64Image apiUrl apiKey s. cbv zeta. unfold callRoboflowAPI. cbv zeta.
  destruct (fetchOutcome env (fetches s)) as [m | st text | r]; cbn [fst snd];
    (split; [reflexivity |]); (split; [reflexivity |]); (split; [reflexivity |]).
  - reflexivity.
  - eexists. split; [reflexivity |]. split; reflexivity.
  - reflexivity.
Qed.

Example service_unavailable :
  (callRoboflowAPI
     (sample_env None (HttpFailure 503 "Service Unavailable") calamansi_answer)
     "/9j/4AAQSkZJRg==" "https://detect.example/verify/1" "key" idle).1 =
    Thrown (Error "Roboflow API error (503): Service Unavailable").
Proof. reflexivity. Qed.

(** ** The upload page *)

Lemma empty_difference (X : gset nat) : (∅ : gset nat) ∖ X = ∅.
Proof.
  apply set_eq. intros x. rewrite elem_of_difference. split; [now intros [H _] |].
  intros H. exfalso. exact (not_elem_of_empty x H).
Qed.

Lemma revoke_current_live p :
  one_url p -> UploadPage.live (UploadPage.revoke_current p) = ∅.
Proof.
  intros [H | (u & Hu & H)]; unfold UploadPage.revoke_current.
  - destruct (UploadPage.currentImageUrl p); cbn; rewrite H;
      [apply empty_difference | reflexivity].
  - rewrite Hu. cbn. rewrite H. apply difference_diag_L.
Qed.

Lemma one_url_ext p q :
  UploadPage.currentImageUrl q = UploadPage.currentImageUrl p ->
  UploadPage.live q = UploadPage.live p ->
  one_url p -> one_url q.
Proof. unfold one_url. intros -> ->. exact id. Qed.

Lemma loadImagePreview_one_url p : one_url p -> one_url (UploadPage.loadImagePreview p).
Proof.
  intros Hp. right. eexists. split; [reflexivity |]. cbn.
  case_bool_decide as Hsome.
  - rewrite (revoke_current_live p Hp). apply union_empty_r_L.
  - destruct Hp as [Hp | (u & Hu & _)].
    + rewrite Hp. apply union_empty_r_L.
    + exfalso. apply Hsome. rewrite Hu. eauto.
Qed.

Lemma step_one_url e p : one_url p -> one_url (UploadPage.step e p).
Proof.
  intros Hp. pose proof (revoke_current_live p Hp) as Hrev.
  destruct e as [[file |] | file w h | |]; cbn [UploadPage.step].
  - destruct (UploadPage.validateFile file); [| exact Hp].
    eapply one_url_ext; [| | apply loadImagePreview_one_url]; [reflexivity | reflexivity |].
    eapply one_url_ext; [| | exact Hp]; reflexivity.
  - exact Hp.
  - destruct (_ || _)%bool; [left; exact Hrev |].
    destruct (_ || _)%bool; [left; exact Hrev |]. exact Hp.
  - left. exact Hrev.
  - case_bool_decide; [left; exact Hrev | exact Hp].
Qed.

Lemma run_one_url events p : one_url p -> one_url (UploadPage.run events p).
Proof.
  revert p. induction events as [| e events IH]; intros p Hp; [exact Hp |].
  cbn. apply IH, step_one_url, Hp.
Qed.

Lemma step_keeps_file e p f :
  UploadPage.currentFile p = Some f ->
  UploadPage.currentFile (UploadPage.step e p) = Some f \/
  exists file,
    e = UploadPage.Change (Some file) /\ UploadPage.validateFile file = UploadPage.Valid /\
    UploadPage.currentFile (UploadPage.step e p) = Some file.
Proof.
  intros Hf.
  assert (Hrev : UploadPage.currentFile (UploadPage.revoke_current p) = Some f).
  { unfold UploadPage.revoke_current. now destruct (UploadPage.currentImageUrl p). }
  destruct e as [[file |] | file w h | |]; cbn [UploadPage.step].
  - destruct (UploadPage.validateFile file) eqn:Hv; [| now left].
    right. exists file. split; [reflexivity |]. split; [exact Hv |].
    cbn. case_bool_decide; [| reflexivity].
    unfold UploadPage.revoke_current. cbn.
    now destruct (UploadPage.currentImageUrl p).
  - now left.
  - left. destruct (_ || _)%bool; [exact Hrev |]. destruct (_ || _)%bool; [exact Hrev | exact Hf].
  - left. exact Hrev.
  - left. case_bool_decide; [exact Hrev | exact Hf].
Qed.

(** X27. Whatever the order of file selections, image loads, load errors
    and unloads: every object URL that is live is the current one (so at
    most one is live and none leaks), and the unload handler leaves none.
    Once a file has been accepted, an event leaves it in [currentFile]
    unless the event is the selection of another file that [validateFile]
    accepts, which takes its place; so a refused preview, which clears the
    input and disables the button, does not clear [currentFile]. *)
Theorem X27_object_urls_do_not_leak :
  forall events,
    let p := UploadPage.run events UploadPage.loaded in
    (forall u, u ∈ UploadPage.live p -> UploadPage.currentImageUrl p = Some u) /\
    UploadPage.live (UploadPage.step UploadPage.BeforeUnload p) = ∅ /\
    (forall e f,
       UploadPage.currentFile p = Some f ->
       UploadPage.currentFile (UploadPage.step e p) = Some f \/
       exists file,
         e = UploadPage.Change (Some file) /\
         UploadPage.validateFile file = UploadPage.Valid /\
         UploadPage.currentFile (UploadPage.step e p) = Some file) /\
    (forall file w h,
       (w <? UploadPage.MIN_IMAGE_SIZE) || (h <? UploadPage.MIN_IMAGE_SIZE) = true ->
       UploadPage.detect_disabled (UploadPage.step (UploadPage.ImageLoaded file w h) p)
         = true /\
       UploadPage.currentImageUrl (UploadPage.step (UploadPage.ImageLoaded file w h) p)
         = None /\
       UploadPage.currentFile (UploadPage.step (UploadPage.ImageLoaded file w h) p)
         = UploadPage.currentFile p).
Proof.
  intros events p.
  assert (Hp : one_url p) by (apply run_one_url; left; reflexivity).
  split; [| split; [| split]].
  - intros u Hu. destruct Hp as [Hp | (v & Hv & Hp)].
    + rewrite Hp in Hu. exfalso. exact (not_elem_of_empty u Hu).
    + rewrite Hp in Hu. apply elem_of_singleton in Hu. now subst.
  - cbn [UploadPage.step]. case_bool_decide as Hsome; [now apply revoke_current_live |].
    destruct Hp as [Hp | (v & Hv & _)]; [exact Hp |].
    exfalso. apply Hsome. rewrite Hv. eauto.
  - intros e f. apply step_keeps_file.
  - intros file w h Hsmall. cbn [UploadPage.step]. rewrite Hsmall.
    split; [reflexivity |]. split; [reflexivity |].
    unfold UploadPage.refuse_image, UploadPage.revoke_current. cbn.
    now destruct (UploadPage.currentImageUrl p).
Qed.

(** ** The pages: further properties *)

Lemma allowed_iff t :
  existsb (String.eqb t) UploadPage.ALLOWED_TYPES = true <->
  In t ["image/jpeg"; "image/jpg"; "image/png"; "image/webp"]%string.
Proof.
  rewrite existsb_exists. split.
  - intros (x & Hin & Heq). apply String.eqb_eq in Heq. now subst.
  - intros Hin. exists t. split; [exact Hin | apply String.eqb_refl].
Qed.

(** X28. [validateFile] of the upload page accepts a file exactly when its
    size is at most 10485760 bytes and its type is one of the four allowed.
    The size is tested first: a file over the limit gets the size message
    whatever its type, a file within the limit of another type the type
    message. The limit and the list of types are those of the server's
    constants. *)
Theorem X28_validateFile_accepts :
  (forall file,
     UploadPage.validateFile file = UploadPage.Valid <->
     UploadPage.size file <= 10485760 /\
     In (UploadPage.file_type file)
        ["image/jpeg"; "image/jpg"; "image/png"; "image/webp"]%string) /\
  (forall file,
     10485760 < UploadPage.size file ->
     UploadPage.validateFile file =
       UploadPage.Invalid "File size exceeds 10MB. Please choose a smaller image.") /\
  (forall file,
     UploadPage.size file <= 10485760 ->
     ~ In (UploadPage.file_type file)
          ["image/jpeg"; "image/jpg"; "image/png"; "image/webp"]%string ->
     UploadPage.validateFile file =
       UploadPage.Invalid "Invalid file type. Please upload a JPEG, PNG, or WebP image.") /\
  UploadPage.MAX_FILE_SIZE = MAX_FILE_SIZE /\
  UploadPage.ALLOWED_TYPES = ALLOWED_TYPES.
Proof.
  assert (Hmax : UploadPage.MAX_FILE_SIZE = 10485760) by reflexivity.
  split; [| split; [| split; [| split; reflexivity]]].
  - intros file. unfold UploadPage.validateFile. rewrite Hmax.
    destruct (Z.gtb_spec (UploadPage.size file) 10485760) as [Hbig | Hsmall].
    { split; [discriminate | intros [Hle _]; lia]. }
    destruct (existsb (String.eqb (UploadPage.file_type file)) UploadPage.ALLOWED_TYPES)
      eqn:Hty; cbn [negb].
    + split; [| reflexivity]. intros _. split; [lia |]. now apply allowed_iff.
    + split; [discriminate |]. intros [_ Hin]. apply allowed_iff in Hin. congruence.
  - intros file Hbig. unfold UploadPage.validateFile. rewrite Hmax.
    destruct (Z.gtb_spec (UploadPage.size file) 10485760); [reflexivity | lia].
  - intros file Hsmall Hty. unfold UploadPage.validateFile. rewrite Hmax.
    destruct (Z.gtb_spec (UploadPage.size file) 10485760); [lia |].
    destruct (existsb (String.eqb (UploadPage.file_type file)) UploadPage.ALLOWED_TYPES)
      eqn:Hex; [| reflexivity].
    apply allowed_iff in Hex. contradiction.
Qed.

Section Shown.

Variable toStr : value -> string.
Variable setItem : value -> option JsError.


End Shown.


(** The refusals of lines 360-365 and 333 as the page would show them, and a
    text of the server that the page replaces by its network message. *)
Example refusals_shown :
  UploadPage.processDetection sample_toStr (fun _ => None)
    (UploadPage.Answered 400
       (inr (json (errorBody "No image file provided" "validation_error" [])))) =
    UploadPage.Alerted "No image file provided" /\
  UploadPage.processDetection sample_toStr (fun _ => None)
    (UploadPage.Answered 405
       (inr (json (errorBody "Method not allowed" "method_error" [])))) =
    UploadPage.Alerted "Method not allowed" /\
  UploadPage.processDetection sample_toStr (fun _ => None)
    (UploadPage.Answered 502
       (inr (VObj [("error"%string, VStr "Failed to fetch the model")]))) =
    UploadPage.Alerted "Network error. Please check your internet connection and try again.".
Proof. repeat split. Qed.
(** The canvases of the two results pages. *)
Lemma onLoad_canvases dom measureText iw ih lx result :
  ResultsPage.canvases (fst (ResultsPage.onLoad dom measureText iw ih lx (Some result))) =
    match Renderer.member "model1" result with
    | inl _ => []
    | inr model1 =>
        if negb (truthyV model1) || negb (truthyV (get "model2" result)) then []
        else if truthyV (get "imageSrc" result) then
          [ResultsPage.draw measureText iw ih
             (orV (get "allPredictions" result)
                (VArr [VObj [("class"%string, get "class" (get "model2" result));
                             ("confidence"%string, get "confidence" (get "model2" result));
                             ("boundingBox"%string,
                              get "boundingBox" (get "model2" result))]]))
             (get "imageWidth" result) (get "imageHeight" result)]
        else []
    end.
Proof.
  unfold ResultsPage.onLoad.
  destruct (Renderer.member "model1" result) as [e | model1]; [reflexivity |].
  destruct (negb (truthyV model1) || negb (truthyV (get "model2" result)));
    [reflexivity |].
  set (canvas := ResultsPage.draw _ _ _ _ _ _).
  destruct (truthyV (get "imageSrc" result));
    destruct (get "class" (get "model2" result));
    destruct (ResultsPage.has_badge dom), (ResultsPage.has_name dom),
      (ResultsPage.has_confidence dom), (ResultsPage.has_description dom);
    try reflexivity;
    destruct (get "allPredictions" result) as [| | b | q | t | ms | l | o];
    cbn [truthyV andb];
    repeat match goal with
           | |- context [if ?b then _ else _] => destruct b
           | |- context [ResultsPage.additional_labels ?l] =>
               destruct (ResultsPage.additional_labels l)
           end;
    reflexivity.
Qed.

Lemma onLoad_single_canvases dom measureText iw ih result :
  ResultsPage.canvases
    (fst (ResultsPage.onLoad_single dom measureText iw ih (Some result))) =
    match Renderer.member "model1" result with
    | inl _ => []
    | inr model1 =>
        if negb (truthyV model1) || negb (truthyV (get "model2" result)) then []
        else
          match get "class" (get "model2" result) with
          | VStr c =>
              if truthyV (get "imageSrc" result)
                 && truthyV (get "boundingBox" (get "model2" result))
              then
                [SingleBox.drawImageWithBoundingBox measureText iw ih
                   (get "boundingBox" (get "model2" result))
                   (get "confidence" (get "model2" result))
                   (ResultsPage.info_name c)
                   (get "imageWidth" result) (get "imageHeight" result)]
              else []
          | _ => []
          end
    end.
Proof.
  unfold ResultsPage.onLoad_single.
  destruct (Renderer.member "model1" result) as [e | model1]; [reflexivity |].
  destruct (negb (truthyV model1) || negb (truthyV (get "model2" result)));
    [reflexivity |].
  set (canvas := SingleBox.drawImageWithBoundingBox _ _ _ _ _).
  destruct (get "class" (get "model2" result));
    destruct (truthyV (get "imageSrc" result) && truthyV (get "boundingBox" (get "model2" result)));
    destruct (ResultsPage.has_badge dom), (ResultsPage.has_name dom),
      (ResultsPage.has_confidence dom), (ResultsPage.has_description dom);
    reflexivity.
Qed.

(** X30. The two results pages on a stored result whose [allPredictions]
    is a list that starts with an entry without [boundingBox], as an entry
    with a label and a percentage only is. The multi-box page hands the list
    to its renderer: the image is drawn and no rectangle, the renderer
    throwing at the first entry; the fallback to model2's bounding box is
    not taken, the list being there. The earlier page draws the one
    rectangle of model2 when model2 has a label and a bounding box. When
    model2 has no label, both pages stop with a TypeError. *)
Theorem X30_results_pages_on_a_stored_result :
  forall dom measureText img_width img_height length_exceeds_1 result m1 m2 src e es,
    get "model1" result = VObj m1 ->
    get "model2" result = VObj m2 ->
    get "imageSrc" result = VStr src -> src <> ""%string ->
    get "allPredictions" result = VArr (e :: es) ->
    get "boundingBox" e = VUndef \/ get "boundingBox" e = VNull ->
    (exists canvas,
       ResultsPage.canvases
         (fst (ResultsPage.onLoad dom measureText img_width img_height length_exceeds_1
                 (Some result))) = [canvas] /\
       Renderer.drawn canvas = [Renderer.DrawImage] /\
       Renderer.raised canvas <> None) /\
    (forall c bb,
       assoc "class" m2 = VStr c -> assoc "boundingBox" m2 = VObj bb ->
       exists canvas,
         ResultsPage.canvases
           (fst (ResultsPage.onLoad_single dom measureText img_width img_height
                   (Some result))) = [canvas] /\
         length (Renderer.strokes (Renderer.drawn canvas)) = 1%nat /\
         Renderer.raised canvas = None) /\
    (assoc "class" m2 = VUndef ->
     snd (ResultsPage.onLoad dom measureText img_width img_height length_exceeds_1
            (Some result)) =
       Some (TypeError "Cannot read properties of undefined (reading 'toLowerCase')") /\
     ResultsPage.onLoad_single dom measureText img_width img_height (Some result) =
       (ResultsPage.when (ResultsPage.has_badge dom)
          (ResultsPage.Badge "block" (assoc "confidence" m1)),
        Some (TypeError "Cannot read properties of undefined (reading 'toLowerCase')"))).
Proof.
  intros dom measureText iw ih lx result m1 m2 src e es Hm1 Hm2 Hsrc Hne Hall Hbox.
  assert (Hs1 : Renderer.member "model1" result = inr (VObj m1)).
  { destruct result; try discriminate Hm1. cbn [Renderer.member]. now rewrite Hm1. }
  assert (Htsrc : truthyV (get "imageSrc" result) = true).
  { rewrite Hsrc. cbn. destruct (String.eqb_spec src ""); [contradiction | reflexivity]. }
  split; [| split].
  - rewrite onLoad_canvases, Hs1, Hm2, Htsrc, Hall. cbn [truthyV negb orb].
    eexists. split; [reflexivity |].
    unfold orV. cbn [truthyV ResultsPage.draw].
    unfold Renderer.drawImageWithBoundingBoxes. cbn [Renderer.drawBoxes].
    destruct (drawBox_without_box measureText
                (Renderer.ndiv (Some iw) (Renderer.toNum (get "imageWidth" result)))
                (Renderer.ndiv (Some ih) (Renderer.toNum (get "imageHeight" result)))
                e 0 Hbox) as (err & Herr).
    rewrite Herr. cbn [Renderer.drawn Renderer.raised].
    split; [reflexivity | discriminate].
  - intros c bb Hc Hbb.
    rewrite onLoad_single_canvases, Hs1, Hm2. cbn [truthyV negb orb get].
    rewrite Hc, Htsrc, Hbb. cbn [truthyV andb].
    eexists. split; [reflexivity |].
    unfold SingleBox.drawImageWithBoundingBox. cbn [Renderer.member].
    split; reflexivity.
  - intros Hc. split.
    + unfold ResultsPage.onLoad. rewrite Hs1, Hm2. cbn [truthyV negb orb get].
      rewrite Hc. reflexivity.
    + unfold ResultsPage.onLoad_single. rewrite Hs1, Hm2. cbn [truthyV negb orb get].
      rewrite Hc. reflexivity.
Qed.

Lemma X30_results_pages_witness :
  (exists canvas,
     ResultsPage.canvases
       (fst (ResultsPage.onLoad sample_dom (fun _ => 120%Q) 1280 1280 (fun _ => false)
               (Some sample_result))) = [canvas] /\
     Renderer.drawn canvas = [Renderer.DrawImage] /\
     Renderer.raised canvas <> None) /\
  (exists canvas,
     ResultsPage.canvases
       (fst (ResultsPage.onLoad_single sample_dom (fun _ => 120%Q) 1280 1280
               (Some sample_result))) = [canvas] /\
     length (Renderer.strokes (Renderer.drawn canvas)) = 1%nat /\
     Renderer.raised canvas = None).
Proof.
  destruct (X30_results_pages_on_a_stored_result sample_dom (fun _ => 120%Q) 1280 1280
              (fun _ => false) sample_result
              [("class"%string, VStr "calamansi"); ("confidence"%string, VStr "92")]
              [("class"%string, VStr "black spot"); ("confidence"%string, VStr "81");
               ("boundingBox"%string,
                VObj [("x"%string, VNum 320); ("y"%string, VNum 320);
                      ("width"%string, VNum 100); ("height"%string, VNum 100)])]
              "data:image/jpeg;base64,/9j/4AAQSkZJRg=="%string
              (sample_entry "black spot" 81) [sample_entry "healthy calamansi" 10])
    as (H1 & H2 & _).
  - reflexivity.
  - reflexivity.
  - reflexivity.
  - discriminate.
  - reflexivity.
  - left. reflexivity.
  - split; [exact H1 |]. eapply H2; reflexivity.
Defined.
